(** * Verification of scripts/convert_catalog.py

    A shallow embedding of the catalog converter: the JSON values it
    reads, the Python built-ins it calls, its conversion functions and the
    main loop with its counters, followed by the properties of the
    conversion. *)

From Stdlib Require Import ZArith String Ascii List Bool Lia.
From Corelib Require Import SpecFloat.
From stdpp Require Import gmap strings.

Local Open Scope string_scope.
Local Open Scope Z_scope.

(** ** Binary64 arithmetic, as CPython's [float] performs it *)

Module Float64.

Definition prec : Z := 53.
Definition emax : Z := 1024.

(** The binary64 nearest to [n / d] (ties to even), with sign [s];
    [n >= 0] and [d > 0].  This is what [float("...")] and [strtod]
    compute for a decimal numeral. *)
Definition of_ratio (s : bool) (n d : Z) : spec_float :=
  match n with
  | Z0 => S754_zero s
  | Zpos _ =>
      let '(mz, ez, lz) := SFdiv_core_binary prec emax n 0 d 0 in
      binary_round_aux prec emax s mz ez lz
  | Zneg _ => S754_nan
  end.

(** [float(n)] for a Python int. *)
Definition of_Z (n : Z) : spec_float := binary_normalize prec emax n 0 false.

Definition mul : spec_float -> spec_float -> spec_float := SFmul prec emax.

(** [n / d] rounded to the nearest integer, ties to even ([d > 0]). *)
Definition round_half_even (n d : Z) : Z :=
  let q := n / d in
  match 2 * (n mod d) ?= d with
  | Lt => q
  | Eq => if Z.even q then q else q + 1
  | Gt => q + 1
  end.

(** [float.__round__(x, ndigits)] for [ndigits >= 0]: non-finite values
    and zeros round to themselves; beyond 323 digits every float does;
    otherwise the exact value of [x] is rounded to [ndigits] decimals,
    ties to even, and the decimal is converted back to binary64. *)
Definition round_ndigits (x : spec_float) (ndigits : N) : spec_float :=
  match x with
  | S754_finite s m e =>
      if (323 <? ndigits)%N then x
      else
        let p := 10 ^ Z.of_N ndigits in
        let num := Zpos m * p * 2 ^ Z.max e 0 in
        let den := 2 ^ Z.max (- e) 0 in
        of_ratio s (round_half_even num den) p
  | _ => x
  end.

(** [int(x)]: truncation toward zero; [None] for infinities and NaN. *)
Definition trunc (x : spec_float) : option Z :=
  match x with
  | S754_zero _ => Some 0
  | S754_finite s m e =>
      let a := if 0 <=? e then Zpos m * 2 ^ e else Zpos m / 2 ^ (- e) in
      Some (if s then - a else a)
  | S754_infinity _ | S754_nan => None
  end.

(** [bool(x)]: only the two zeros are false. *)
Definition truthy (x : spec_float) : bool :=
  match x with
  | S754_zero _ => false
  | _ => true
  end.

End Float64.

(** ** JSON values, as [json.load] returns them *)

#[warnings="-register-all"]
Inductive value : Type :=
| VNone
| VBool (b : bool)
| VInt (n : Z)
| VFloat (x : spec_float)
| VStr (s : string)
| VList (l : list value)
| VDict (d : list (string * value)).

(** A Python dict whose keys are strings, in insertion order.  The keys of
    a Python dict are distinct; lookups take the first binding. *)
Abbreviation dict := (list (string * value)).

Fixpoint assoc {A : Type} (k : string) (d : list (string * A)) : option A :=
  match d with
  | [] => None
  | (k', x) :: rest => if String.eqb k k' then Some x else assoc k rest
  end.

(** [d.get(k)] and [d.get(k, dflt)]. *)
Definition get (d : dict) (k : string) : value := default VNone (assoc k d).
Definition get_or (d : dict) (k : string) (dflt : value) : value :=
  default dflt (assoc k d).

(** ** Exceptions *)

Inductive exn : Type :=
| TypeError | ValueError | OverflowError | AttributeError.

Inductive result (A : Type) : Type :=
| Ok (a : A)
| Raise (e : exn).
Arguments Ok {A} a.
Arguments Raise {A} e.

#[global] Instance result_ret : MRet result := fun _ a => Ok a.
#[global] Instance result_bind : MBind result := fun _ _ f m =>
  match m with
  | Ok a => f a
  | Raise e => Raise e
  end.

(** ** The Python built-ins the converter calls *)

(** [x is None] *)
Definition is_None (x : value) : bool :=
  match x with
  | VNone => true
  | _ => false
  end.

(** [bool(x)] *)
Definition truthy (x : value) : bool :=
  match x with
  | VNone => false
  | VBool b => b
  | VInt n => negb (n =? 0)
  | VFloat f => Float64.truthy f
  | VStr s => negb (String.eqb s "")
  | VList l => match l with [] => false | _ => true end
  | VDict d => match d with [] => false | _ => true end
  end.

(** [a or b] *)
Definition py_or (a b : value) : value := if truthy a then a else b.

Fixpoint str_repeat (s : string) (n : nat) : string :=
  match n with
  | O => ""
  | S n' => s ++ str_repeat s n'
  end.

Fixpoint list_repeat {A : Type} (l : list A) (n : nat) : list A :=
  match n with
  | O => []
  | S n' => l ++ list_repeat l n'
  end.

(** [x * n] for an int literal [n]. *)
Definition py_mul (x : value) (n : Z) : result value :=
  match x with
  | VBool b => Ok (VInt (Z.b2z b * n))
  | VInt k => Ok (VInt (k * n))
  | VFloat f =>
      match Float64.of_Z n with
      | S754_infinity _ => Raise OverflowError
      | fn => Ok (VFloat (Float64.mul f fn))
      end
  | VStr s => Ok (VStr (str_repeat s (Z.to_nat n)))
  | VList l => Ok (VList (list_repeat l (Z.to_nat n)))
  | VNone | VDict _ => Raise TypeError
  end.

(** [round(x, ndigits)] for an int literal [ndigits >= 0]: an int rounds to
    itself, a float as [Float64.round_ndigits] says. *)
Definition py_round (x : value) (ndigits : N) : result value :=
  match x with
  | VBool b => Ok (VInt (Z.b2z b))
  | VInt k => Ok (VInt k)
  | VFloat (S754_finite s m e) =>
      match Float64.round_ndigits (S754_finite s m e) ndigits with
      | S754_infinity _ => Raise OverflowError
      | r => Ok (VFloat r)
      end
  | VFloat f => Ok (VFloat f)
  | VNone | VStr _ | VList _ | VDict _ => Raise TypeError
  end.

(** [a + s] for a string [s]: only a string can be added to a string. *)
Definition py_add_str (a : value) (s : string) : result string :=
  match a with
  | VStr x => Ok (x ++ s)
  | _ => Raise TypeError
  end.

(** [table.get(k, dflt)] and [k in table] for a table keyed by strings: the
    key is hashed first, which lists and dicts refuse; a hashable key that
    is not a string equals no key of the table. *)
Definition table_get {A : Type} (table : list (string * A)) (k : value) (dflt : A)
  : result A :=
  match k with
  | VStr s => Ok (default dflt (assoc s table))
  | VList _ | VDict _ => Raise TypeError
  | _ => Ok dflt
  end.

Definition set_mem (set : list string) (k : value) : result bool :=
  match k with
  | VStr s => Ok (existsb (String.eqb s) set)
  | VList _ | VDict _ => Raise TypeError
  | _ => Ok false
  end.

(** [s.startswith(prefix)] and [s[n:]] *)
Definition startswith (s pre : string) : bool := String.prefix pre s.
Definition slice_from (n : nat) (s : string) : string :=
  String.substring n (String.length s - n) s.

(** The plain ASCII fragment of [int(s)] on a string: optional surrounding
    white space, an optional sign, decimal digits with single underscores
    between them. *)
Module IntOfStr.

Definition is_space (c : ascii) : bool :=
  let n := nat_of_ascii c in
  ((n =? 32) || ((9 <=? n) && (n <=? 13)) || ((28 <=? n) && (n <=? 31)))%nat.

Definition is_digit (c : ascii) : bool :=
  let n := nat_of_ascii c in ((48 <=? n) && (n <=? 57))%nat.

Definition digit (c : ascii) : Z := Z.of_nat (nat_of_ascii c) - 48.

Fixpoint lstrip (s : string) : string :=
  match s with
  | String c r => if is_space c then lstrip r else s
  | EmptyString => s
  end.

Fixpoint all_space (s : string) : bool :=
  match s with
  | String c r => is_space c && all_space r
  | EmptyString => true
  end.

Fixpoint digits (s : string) (acc : Z) (after_digit : bool) : option Z :=
  match s with
  | EmptyString => if after_digit then Some acc else None
  | String c r =>
      if is_digit c then digits r (10 * acc + digit c) true
      else if Ascii.eqb c "_" then
        if after_digit then digits r acc false else None
      else if after_digit && all_space s then Some acc
      else None
  end.

Definition parse (s : string) : option Z :=
  match lstrip s with
  | String "+" r => digits r 0 false
  | String "-" r => Z.opp <$> digits r 0 false
  | r => digits r 0 false
  end.

End IntOfStr.

(** ** The converter's tables *)

Definition MODE_MAP : list (string * string) :=
  [ ("chat",                "chat");
    ("completion",          "chat");
    ("embedding",           "embedding");
    ("image_generation",    "image");
    ("audio_transcription", "audio_in");
    ("audio_speech",        "audio_out") ].

Definition SKIP_MODES : list string := ["moderation"; "rerank"; "search"].

Definition PROVIDER_ALIASES : list (string * string) :=
  [ ("text-completion-openai",        "openai");
    ("chatgpt",                       "openai");
    ("openai_like",                   "openai");
    ("openai_compatible",             "openai");
    ("cohere_chat",                   "cohere");
    ("codestral",                     "mistral");
    ("text-completion-codestral",     "mistral");
    ("mistral_azure",                 "azure");
    ("together_ai",                   "together");
    ("fireworks_ai",                  "fireworks");
    ("fireworks_ai-embedding-models", "fireworks");
    ("bedrock_converse",              "bedrock");
    ("bedrock_converse_passthrough",  "bedrock");
    ("sagemaker_chat",                "sagemaker");
    ("sagemaker_meta",                "sagemaker");
    ("vertex_ai_beta",                "vertex_ai");
    ("vertex_ai-anthropic_models",    "vertex_ai");
    ("vertex_ai-llama_models",        "vertex_ai");
    ("vertex_ai-mistral_models",      "vertex_ai");
    ("vertex_ai-image-models",        "vertex_ai");
    ("vertex_ai-embedding-models",    "vertex_ai");
    ("vertex_ai-vision-models",       "vertex_ai");
    ("vertex_ai-code-text-models",    "vertex_ai");
    ("vertex_ai-language-models",     "vertex_ai");
    ("vertex_ai-text-models",         "vertex_ai");
    ("vertex_ai-chat-models",         "vertex_ai");
    ("vertex_ai-code-chat-models",    "vertex_ai");
    ("azure_ai",                      "azure");
    ("azure_text",                    "azure");
    ("azure_openai",                  "azure");
    ("eu.anthropic",                  "anthropic");
    ("us.anthropic",                  "anthropic");
    ("us.amazon",                     "bedrock");
    ("eu.amazon",                     "bedrock");
    ("ap.amazon",                     "bedrock");
    ("us.meta",                       "bedrock");
    ("eu.meta",                       "bedrock");
    ("ollama_chat",                   "ollama");
    ("ai21_chat",                     "ai21") ].

(** ** The catalog entry *)

Record Pricing : Type := {
  input_per_m_tokens : value;
  output_per_m_tokens : value;
  cache_read_per_m_tokens : value;
  cache_write_per_m_tokens : value;
  reasoning_per_m_tokens : value;
  image_per_tile : value;
  audio_input_per_minute : value;
  audio_output_per_character : value;
  embedding_per_m_tokens : value;
  finetune_train_per_m_tokens : value;
  finetune_input_per_m_tokens : value;
  finetune_output_per_m_tokens : value
}.

Record Capabilities : Type := {
  vision : bool;
  audio_input : bool;
  audio_output : bool;
  function_calling : bool;
  parallel_tool_calls : bool;
  json_mode : bool;
  response_schema : bool;
  prompt_caching : bool;
  reasoning : bool;
  streaming : bool;
  finetuneable : bool
}.

Record Lifecycle : Type := {
  status : string;
  deprecation_date : value;
  sunset_date : value;
  successor : value
}.

Record Entry : Type := {
  provider : value;
  model_id : string;
  display_name : value;
  mode : string;
  context_window : Z;
  max_output_tokens : Z;
  pricing : Pricing;
  capabilities : Capabilities;
  lifecycle : Lifecycle;
  source : value;
  updated_at : string
}.

(** ** The conversion functions *)

Definition canonical_provider (litellm_provider : value) : result value :=
  table_get (map (fun '(k, c) => (k, VStr c)) PROVIDER_ALIASES)
            litellm_provider litellm_provider.

Definition derive_model_id (litellm_key : string) (litellm_provider : value)
  : result string :=
  canon ← canonical_provider litellm_provider;
  prefix1 ← py_add_str litellm_provider "/";
  prefix2 ← py_add_str canon "/";
  if startswith litellm_key prefix1 then
    Ok (slice_from (String.length prefix1) litellm_key)
  else if startswith litellm_key prefix2 then
    Ok (slice_from (String.length prefix2) litellm_key)
  else Ok litellm_key.

Definition per_m (cost_per_token : value) : result value :=
  if is_None cost_per_token then Ok VNone
  else x ← py_mul cost_per_token 1000000; py_round x 10.

(** The audio-input rate of the general branch. *)
Definition audio_in_per_min (v : dict) : result value :=
  if negb (is_None (get v "input_cost_per_second")) then
    x ← py_mul (get v "input_cost_per_second") 60; py_round x 10
  else if negb (is_None (get v "input_cost_per_audio_per_second")) then
    x ← py_mul (get v "input_cost_per_audio_per_second") 60; py_round x 10
  else Ok VNone.

Definition embedding_pricing (v : dict) : result Pricing :=
  emb ← per_m (get v "input_cost_per_token");
  Ok {| input_per_m_tokens := VNone; output_per_m_tokens := VNone;
        cache_read_per_m_tokens := VNone; cache_write_per_m_tokens := VNone;
        reasoning_per_m_tokens := VNone; image_per_tile := VNone;
        audio_input_per_minute := VNone; audio_output_per_character := VNone;
        embedding_per_m_tokens := emb;
        finetune_train_per_m_tokens := VNone;
        finetune_input_per_m_tokens := VNone;
        finetune_output_per_m_tokens := VNone |}.

Definition general_pricing (v : dict) : result Pricing :=
  audio ← audio_in_per_min v;
  inp ← per_m (get v "input_cost_per_token");
  out ← per_m (get v "output_cost_per_token");
  cread ← per_m (get v "cache_read_input_token_cost");
  cwrite ← per_m (get v "cache_creation_input_token_cost");
  reas ← per_m (get v "input_cost_per_reasoning_token");
  fttrain ← per_m (get v "ft_input_cost_per_token");
  ftin ← per_m (get v "ft_input_cost_per_token");
  ftout ← per_m (get v "ft_output_cost_per_token");
  Ok {| input_per_m_tokens := inp;
        output_per_m_tokens := out;
        cache_read_per_m_tokens := cread;
        cache_write_per_m_tokens := cwrite;
        reasoning_per_m_tokens := reas;
        image_per_tile := get v "output_cost_per_image";
        audio_input_per_minute := audio;
        audio_output_per_character := get v "output_cost_per_character";
        embedding_per_m_tokens := VNone;
        finetune_train_per_m_tokens := fttrain;
        finetune_input_per_m_tokens := ftin;
        finetune_output_per_m_tokens := ftout |}.

Definition caps (v : dict) : Capabilities :=
  {| vision := truthy (get v "supports_vision");
     audio_input := truthy (get v "supports_audio_input");
     audio_output := truthy (get v "supports_audio_output");
     function_calling := truthy (get v "supports_function_calling");
     parallel_tool_calls := truthy (get v "supports_parallel_function_calling");
     json_mode := truthy (get v "supports_function_calling");
     response_schema := truthy (get v "supports_response_schema");
     prompt_caching := truthy (get v "supports_prompt_caching");
     reasoning := truthy (py_or (get v "supports_reasoning")
                                (get v "input_cost_per_reasoning_token"));
     streaming := true;
     finetuneable := truthy (py_or (get v "ft_input_cost_per_token")
                                   (get v "ft_output_cost_per_token")) |}.

Definition lifecycle_of (v : dict) : Lifecycle :=
  {| status := if truthy (get v "deprecation_date") then "deprecated" else "ga";
     deprecation_date := get v "deprecation_date";
     sunset_date := VNone;
     successor := VNone |}.

Definition has_pricing (entry : Entry) : bool :=
  let p := pricing entry in
  existsb (fun x => negb (is_None x))
    [ input_per_m_tokens p; output_per_m_tokens p;
      embedding_per_m_tokens p; image_per_tile p;
      audio_input_per_minute p; audio_output_per_character p ].

(** ** The run state: the catalog under construction and the counters *)

Record Counters : Type := {
  skipped_spec : nat;
  skipped_mode : nat;
  skipped_no_provider : nat;
  duplicates : nat;
  written : nat
}.

Record State : Type := {
  catalog : gmap string Entry;
  counters : Counters
}.

Definition incr_skipped_spec (c : Counters) : Counters :=
  {| skipped_spec := S (skipped_spec c); skipped_mode := skipped_mode c;
     skipped_no_provider := skipped_no_provider c;
     duplicates := duplicates c; written := written c |}.

Definition incr_skipped_mode (c : Counters) : Counters :=
  {| skipped_spec := skipped_spec c; skipped_mode := S (skipped_mode c);
     skipped_no_provider := skipped_no_provider c;
     duplicates := duplicates c; written := written c |}.

Definition incr_skipped_no_provider (c : Counters) : Counters :=
  {| skipped_spec := skipped_spec c; skipped_mode := skipped_mode c;
     skipped_no_provider := S (skipped_no_provider c);
     duplicates := duplicates c; written := written c |}.

Definition incr_duplicates (c : Counters) : Counters :=
  {| skipped_spec := skipped_spec c; skipped_mode := skipped_mode c;
     skipped_no_provider := skipped_no_provider c;
     duplicates := S (duplicates c); written := written c |}.

Definition incr_written (c : Counters) : Counters :=
  {| skipped_spec := skipped_spec c; skipped_mode := skipped_mode c;
     skipped_no_provider := skipped_no_provider c;
     duplicates := duplicates c; written := S (written c) |}.

Definition init_state : State :=
  {| catalog := ∅;
     counters := {| skipped_spec := 0; skipped_mode := 0;
                    skipped_no_provider := 0; duplicates := 0;
                    written := 0 |} |}.

Section Converter.

(** [int(s)] on a string, Python's own parser: [None] where it raises
    [ValueError]. *)
Variable int_of_str : string -> option Z.

(** [int(x)] *)
Definition py_int (x : value) : result Z :=
  match x with
  | VBool b => Ok (Z.b2z b)
  | VInt n => Ok n
  | VFloat f =>
      match Float64.trunc f with
      | Some n => Ok n
      | None =>
          match f with
          | S754_nan => Raise ValueError
          | _ => Raise OverflowError
          end
      end
  | VStr s =>
      match int_of_str s with
      | Some n => Ok n
      | None => Raise ValueError
      end
  | VNone | VList _ | VDict _ => Raise TypeError
  end.

(** [None] is the Python [None] of a skipped mode. *)
Definition convert_entry (litellm_key : string) (v : dict) (provider : value)
  : result (option Entry) :=
  let raw_mode := get v "mode" in
  skip ← set_mem SKIP_MODES raw_mode;
  if (skip : bool) then Ok None
  else
    mode ← table_get MODE_MAP raw_mode "chat";
    model_id ← derive_model_id litellm_key
                 (get_or v "litellm_provider" (VStr ""));
    pricing ← (if String.eqb mode "embedding" then embedding_pricing v
               else general_pricing v);
    ctx ← py_int (py_or (get v "max_input_tokens") (VInt 0));
    max_out ← py_int (py_or (get v "max_output_tokens") (VInt 0));
    Ok (Some {| provider := provider;
                model_id := model_id;
                display_name := py_or (get v "display_name") (VStr model_id);
                mode := mode;
                context_window := ctx;
                max_output_tokens := max_out;
                pricing := pricing;
                capabilities := caps v;
                lifecycle := lifecycle_of v;
                source := py_or (get v "source") (VStr "");
                updated_at := "2026-02-28" |}).

(** One iteration of the loop of [main] over [raw.items()]. *)
Definition main_step (st : State) (item : string * value) : result State :=
  let '(litellm_key, v) := item in
  if String.eqb litellm_key "sample_spec" then
    Ok {| catalog := catalog st;
          counters := incr_skipped_spec (counters st) |}
  else
    match v with
    | VDict v =>
        let litellm_provider := py_or (get v "litellm_provider") (VStr "") in
        if negb (truthy litellm_provider) then
          Ok {| catalog := catalog st;
                counters := incr_skipped_no_provider (counters st) |}
        else
          provider ← canonical_provider litellm_provider;
          converted ← convert_entry litellm_key v provider;
          match converted with
          | None =>
              Ok {| catalog := catalog st;
                    counters := incr_skipped_mode (counters st) |}
          | Some entry =>
              prefix ← py_add_str provider "/";
              let catalog_key := prefix ++ model_id entry in
              match catalog st !! catalog_key with
              | Some existing =>
                  Ok {| catalog :=
                          if has_pricing entry && negb (has_pricing existing)
                          then <[catalog_key := entry]> (catalog st)
                          else catalog st;
                        counters := incr_duplicates (counters st) |}
              | None =>
                  Ok {| catalog := <[catalog_key := entry]> (catalog st);
                        counters := incr_written (counters st) |}
              end
          end
    | _ => Ok st
    end.

Fixpoint main_loop (items : list (string * value)) (st : State)
  : result State :=
  match items with
  | [] => Ok st
  | item :: rest => st' ← main_step st item; main_loop rest st'
  end.

(** The conversion of [main]: [raw] is what [json.load] returned; the
    result is the catalog that is written out and the counters that are
    reported. *)
Definition main (raw : value) : result State :=
  match raw with
  | VDict items => main_loop items init_state
  | _ => Raise AttributeError
  end.

End Converter.

(** ** Sample source data *)

Module Samples.

(** The JSON numerals [0.00003] and [0.00001]. *)
Definition f_3e_5 : spec_float := Float64.of_ratio false 3 100000.
Definition f_1e_5 : spec_float := Float64.of_ratio false 1 100000.

(** [{"gpt-4/foo": {"litellm_provider": "openai", "mode": "chat",
     "input_cost_per_token": 0.00003}}] *)
Definition gpt4_foo : dict :=
  [ ("litellm_provider", VStr "openai"); ("mode", VStr "chat");
    ("input_cost_per_token", VFloat f_3e_5) ].
Definition raw_gpt4_foo : value := VDict [("gpt-4/foo", VDict gpt4_foo)].

(** An embedding model that also carries an output cost and a per-second
    audio cost. *)
Definition embedding_with_extras : dict :=
  [ ("litellm_provider", VStr "openai"); ("mode", VStr "embedding");
    ("input_cost_per_token", VInt 1); ("output_cost_per_token", VInt 2);
    ("input_cost_per_second", VInt 1) ].

(** A transcription model priced at 0.00001 per second. *)
Definition transcriber : dict :=
  [ ("litellm_provider", VStr "openai"); ("mode", VStr "audio_transcription");
    ("input_cost_per_second", VFloat f_1e_5) ].

(** A chat model with both audio fields and a fine-tuning cost. *)
Definition chat_with_audio : dict :=
  [ ("litellm_provider", VStr "openai"); ("mode", VStr "chat");
    ("input_cost_per_token", VFloat f_3e_5);
    ("input_cost_per_audio_per_second", VInt 2);
    ("ft_input_cost_per_token", VInt 3);
    ("supports_function_calling", VBool true);
    ("supports_reasoning", VBool true) ].

(** Two source keys of one catalog key, ["openai/foo"]. *)
Definition unpriced : dict :=
  [ ("litellm_provider", VStr "openai"); ("mode", VStr "chat") ].
Definition priced : dict :=
  [ ("litellm_provider", VStr "openai"); ("mode", VStr "chat");
    ("input_cost_per_token", VFloat f_3e_5) ].
Definition raw_unpriced_then_priced : value :=
  VDict [ ("openai/foo", VDict unpriced); ("foo", VDict priced) ].

(** A later source key of the same catalog key, priced differently. *)
Definition priced_later : dict :=
  [ ("litellm_provider", VStr "openai"); ("mode", VStr "chat");
    ("input_cost_per_token", VInt 1) ].

(** An entry whose only price is a cache-read cost. *)
Definition cache_priced : dict :=
  [ ("litellm_provider", VStr "openai"); ("mode", VStr "chat");
    ("cache_read_input_token_cost", VInt 1) ].

(** A reasoning-token price of zero and no reasoning flag. *)
Definition free_reasoning : dict :=
  [ ("litellm_provider", VStr "openai"); ("mode", VStr "chat");
    ("input_cost_per_reasoning_token", VInt 0) ].

(** A priced model under an alias of [openai]: the source key
    ["chatgpt/foo"] goes to the catalog key ["openai/foo"]. *)
Definition priced_alias : dict :=
  [ ("litellm_provider", VStr "chatgpt"); ("mode", VStr "chat");
    ("input_cost_per_token", VInt 1) ].

(** A mode that [MODE_MAP] does not list and [SKIP_MODES] does not skip. *)
Definition unknown_mode : dict :=
  [ ("litellm_provider", VStr "openai"); ("mode", VStr "responses") ].

Definition deprecated_model : dict :=
  [ ("litellm_provider", VStr "openai"); ("mode", VStr "chat");
    ("deprecation_date", VStr "2025-01-01") ].

(** A provider tag that is a number. *)
Definition numeric_provider : dict :=
  [ ("litellm_provider", VInt 7); ("mode", VStr "chat") ].

Definition reranker : dict :=
  [ ("litellm_provider", VStr "cohere"); ("mode", VStr "rerank") ].

Definition no_provider : dict := [ ("mode", VStr "chat") ].

(** One item of each skip category, then a model. *)
Definition raw_with_skips : value :=
  VDict [ ("sample_spec", VDict gpt4_foo);
          ("not-a-record", VStr "text");
          ("anonymous", VDict no_provider);
          ("cohere/rerank-v3", VDict reranker);
          ("gpt-4/foo", VDict gpt4_foo) ].

End Samples.

(** ** Vocabulary of the statements *)

(** The canonical name of a provider string: its alias, or itself. *)
Definition canonical_name (p : string) : string :=
  default p (assoc p PROVIDER_ALIASES).

(** [round(c * k, 10)] *)
Definition rounded_product (c : value) (k : Z) : result value :=
  x ← py_mul c k; py_round x 10.

(** The per-token source fields and the rate each one feeds in the general
    branch. *)
Definition per_token_rates : list (string * (Pricing -> value)) :=
  [ ("input_cost_per_token",            input_per_m_tokens);
    ("output_cost_per_token",           output_per_m_tokens);
    ("cache_read_input_token_cost",     cache_read_per_m_tokens);
    ("cache_creation_input_token_cost", cache_write_per_m_tokens);
    ("input_cost_per_reasoning_token",  reasoning_per_m_tokens);
    ("ft_input_cost_per_token",         finetune_train_per_m_tokens);
    ("ft_input_cost_per_token",         finetune_input_per_m_tokens);
    ("ft_output_cost_per_token",        finetune_output_per_m_tokens) ].

(** The rates an embedding entry leaves empty. *)
Definition non_embedding_rates : list (Pricing -> value) :=
  [ input_per_m_tokens; output_per_m_tokens; cache_read_per_m_tokens;
    cache_write_per_m_tokens; reasoning_per_m_tokens; image_per_tile;
    audio_input_per_minute; audio_output_per_character;
    finetune_train_per_m_tokens; finetune_input_per_m_tokens;
    finetune_output_per_m_tokens ].

(** The source item [(key, v)] is converted to the entry [e] and goes to
    the catalog under the key [k]: the key is not the reserved one, the
    provider tag is a non-empty string, the mode is not skipped, and [k] is
    the canonical provider, a slash and the model identifier. *)
Definition accepts (int_of_str : string -> option Z)
    (key : string) (v : dict) (k : string) (e : Entry) : Prop :=
  key <> "sample_spec" /\
  exists s, get v "litellm_provider" = VStr s /\ s <> "" /\
            convert_entry int_of_str key v (VStr (canonical_name s))
              = Ok (Some e) /\
            k = (canonical_name s ++ "/") ++ model_id e.

(** The state after an item that only bumps a counter, and the state after
    an accepted entry [e] for the catalog key [k]. *)
Definition skip (bump : Counters -> Counters) (st : State) : State :=
  {| catalog := catalog st; counters := bump (counters st) |}.

Definition store (k : string) (e : Entry) (st : State) : State :=
  match catalog st !! k with
  | Some existing =>
      {| catalog := if has_pricing e && negb (has_pricing existing)
                    then <[k := e]> (catalog st) else catalog st;
         counters := incr_duplicates (counters st) |}
  | None =>
      {| catalog := <[k := e]> (catalog st);
         counters := incr_written (counters st) |}
  end.

(** The five modes of the catalog schema. *)
Definition CATALOG_MODES : list string :=
  ["chat"; "embedding"; "image"; "audio_in"; "audio_out"].

(** A rate that is null or a number. *)
Definition is_rate (x : value) : bool :=
  match x with
  | VNone | VInt _ | VFloat _ => true
  | _ => false
  end.

(** The rates that are computed, not copied from the source. *)
Definition computed_rates : list (Pricing -> value) :=
  [ input_per_m_tokens; output_per_m_tokens; cache_read_per_m_tokens;
    cache_write_per_m_tokens; reasoning_per_m_tokens; audio_input_per_minute;
    embedding_per_m_tokens; finetune_train_per_m_tokens;
    finetune_input_per_m_tokens; finetune_output_per_m_tokens ].

(** The source fields that give a general entry its pricing. *)
Definition general_price_sources : list string :=
  [ "input_cost_per_token"; "output_cost_per_token"; "output_cost_per_image";
    "input_cost_per_second"; "input_cost_per_audio_per_second";
    "output_cost_per_character" ].

(** The sum of the five counters, and the items of a run that no counter
    sees: the values that are not records, under a key other than the
    reserved one. *)
Definition total_counted (c : Counters) : nat :=
  (skipped_spec c + skipped_mode c + skipped_no_provider c
   + duplicates c + written c)%nat.

Definition uncounted_item (item : string * value) : bool :=
  negb (String.eqb (fst item) "sample_spec")
  && match snd item with VDict _ => false | _ => true end.

Definition uncounted (items : list (string * value)) : nat :=
  length (List.filter uncounted_item items).

(** * Properties *)

(** ** The exception monad *)

Lemma bind_Ok {A B : Type} (m : result A) (f : A -> result B) (b : B) :
  (m ≫= f) = Ok b -> exists a, m = Ok a /\ f a = Ok b.
Proof.
  destruct m as [a | e]; simpl; intros H.
  - exists a. split; [reflexivity | exact H].
  - discriminate H.
Qed.

(** Splits a hypothesis [x ← m; k = Ok b] into [m = Ok x] and [k = Ok b]. *)
Ltac inv_bind H :=
  let a := fresh "a" in
  let Ha := fresh "Ha" in
  apply bind_Ok in H; destruct H as (a & Ha & H).

(** ** Strings *)

Lemma str_prefix_app (p s : string) : String.prefix p (p ++ s) = true.
Proof.
  induction p as [| c p IH]; simpl.
  - destruct s; reflexivity.
  - destruct (ascii_dec c c) as [_ | Hne]; [exact IH | contradiction].
Qed.

Lemma str_prefix_inv (p s : string) :
  String.prefix p s = true -> exists rest, s = p ++ rest.
Proof.
  revert s. induction p as [| c p IH]; intros s H.
  - exists s. reflexivity.
  - destruct s as [| c' s]; simpl in H; [discriminate |].
    destruct (ascii_dec c c') as [-> | _]; [| discriminate].
    destruct (IH _ H) as [rest ->]. exists rest. reflexivity.
Qed.

Lemma substring_all (s : string) : String.substring 0 (String.length s) s = s.
Proof.
  induction s as [| c s IH]; simpl; [reflexivity | now rewrite IH].
Qed.

Lemma slice_from_app (p s : string) : slice_from (String.length p) (p ++ s) = s.
Proof.
  unfold slice_from. induction p as [| c p IH]; simpl.
  - rewrite Nat.sub_0_r. apply substring_all.
  - exact IH.
Qed.

Lemma startswith_iff (s p : string) :
  startswith s p = true <-> exists rest, s = p ++ rest.
Proof.
  unfold startswith. split.
  - apply str_prefix_inv.
  - intros [rest ->]. apply str_prefix_app.
Qed.

(** ** Provider names and model identifiers *)

Lemma assoc_map {A B : Type} (f : A -> B) (k : string) (t : list (string * A)) :
  assoc k (map (fun '(k', x) => (k', f x)) t) = f <$> assoc k t.
Proof.
  induction t as [| [k' x] t IH]; simpl; [reflexivity |].
  destruct (String.eqb k k'); [reflexivity | exact IH].
Qed.

Lemma canonical_provider_str (p : string) :
  canonical_provider (VStr p) = Ok (VStr (canonical_name p)).
Proof.
  unfold canonical_provider, canonical_name, table_get.
  rewrite assoc_map. destruct (assoc p PROVIDER_ALIASES); reflexivity.
Qed.

(** Only a string has a canonical provider that can be joined to ["/"]. *)
Lemma canonical_provider_joinable (p c : value) (pre : string) :
  canonical_provider p = Ok c -> py_add_str c "/" = Ok pre ->
  exists s, p = VStr s /\ c = VStr (canonical_name s)
            /\ pre = canonical_name s ++ "/".
Proof.
  intros Hc Hadd. destruct p as [| b | n | x | s | l | d];
    try (unfold canonical_provider, table_get in Hc; injection Hc as <-;
         discriminate Hadd);
    try discriminate Hc.
  rewrite canonical_provider_str in Hc. injection Hc as <-.
  simpl in Hadd. injection Hadd as <-. exists s. auto.
Qed.

Lemma derive_model_id_str (key p : string) :
  derive_model_id key (VStr p) =
  Ok (if startswith key (p ++ "/") then
        slice_from (String.length (p ++ "/")) key
      else if startswith key (canonical_name p ++ "/") then
        slice_from (String.length (canonical_name p ++ "/")) key
      else key).
Proof.
  unfold derive_model_id. rewrite canonical_provider_str. simpl.
  destruct (startswith key (p ++ "/")); [reflexivity |].
  destruct (startswith key (canonical_name p ++ "/")); reflexivity.
Qed.

(** C6: for a composite key [key] and a raw provider tag [p] with
    canonical provider [canon], the model identifier is: the rest of the
    key after ["<p>/"] when the key starts with it; otherwise the rest after
    ["<canon>/"] when the key starts with that; otherwise the key itself.
    The raw prefix is tried first, and the result is a function of the two
    arguments. *)
Theorem C6_derive_model_id_prefix_rule (key p canon : string) :
  canonical_provider (VStr p) = Ok (VStr canon) ->
  (forall rest, key = (p ++ "/") ++ rest ->
     derive_model_id key (VStr p) = Ok rest)
  /\ (forall rest, startswith key (p ++ "/") = false ->
        key = (canon ++ "/") ++ rest ->
        derive_model_id key (VStr p) = Ok rest)
  /\ (startswith key (p ++ "/") = false ->
      startswith key (canon ++ "/") = false ->
      derive_model_id key (VStr p) = Ok key).
Proof.
  rewrite canonical_provider_str. intros [= <-].
  rewrite derive_model_id_str. repeat split.
  - intros rest ->. unfold startswith. rewrite str_prefix_app.
    now rewrite slice_from_app.
  - intros rest -> ->.
    unfold startswith. rewrite str_prefix_app. now rewrite slice_from_app.
  - intros -> ->. reflexivity.
Qed.

(** ** Binary64 rounding at known values *)

(** [round(0.125, 2) == 0.12]: an exact tie goes to the even digit. *)
Example round_tie_to_even :
  Float64.round_ndigits (Float64.of_ratio false 125 1000) 2
  = Float64.of_ratio false 12 100.
Proof. vm_compute. reflexivity. Qed.

(** [round(2.675, 2) == 2.67]: the binary64 nearest to 2.675 lies below
    the tie. *)
Example round_below_tie :
  Float64.round_ndigits (Float64.of_ratio false 2675 1000) 2
  = Float64.of_ratio false 267 100.
Proof. vm_compute. reflexivity. Qed.

(** [round(-0.00000000004, 10) == -0.0]: the sign is kept. *)
Example round_to_negative_zero :
  Float64.round_ndigits (Float64.of_ratio true 4 100000000000) 10
  = S754_zero true.
Proof. vm_compute. reflexivity. Qed.

(** [0.00003 * 1_000_000 == 30.0], and rounding keeps it. *)
Example rounded_product_3e_5 :
  rounded_product (VFloat Samples.f_3e_5) 1000000
  = Ok (VFloat (Float64.of_Z 30)).
Proof. vm_compute. reflexivity. Qed.

(** [0.00001 * 60 == 0.0006000000000000001], which [round(_, 10)] brings
    to [0.0006]. *)
Example rounded_product_1e_5 :
  py_mul (VFloat Samples.f_1e_5) 60
  = Ok (VFloat (S754_finite false 5534023222112866 (-63)))
  /\ rounded_product (VFloat Samples.f_1e_5) 60
     = Ok (VFloat (Float64.of_ratio false 6 10000))
  /\ Float64.of_ratio false 6 10000 = S754_finite false 5534023222112865 (-63).
Proof. vm_compute. repeat split. Qed.

(** [int(-2.7) == -2] *)
Example trunc_toward_zero :
  Float64.trunc (Float64.of_ratio true 27 10) = Some (-2).
Proof. vm_compute. reflexivity. Qed.

(** ** Unit conversion *)

Lemma py_round_not_None (x r : value) (n : N) :
  py_round x n = Ok r -> is_None r = false.
Proof.
  unfold py_round.
  destruct x as [| b | k | f | s | l | d]; try discriminate;
    try (intros [= <-]; reflexivity).
  destruct f as [sg | sg | | sg m e]; try (intros [= <-]; reflexivity).
  destruct (Float64.round_ndigits (S754_finite sg m e) n); try discriminate;
    intros [= <-]; reflexivity.
Qed.

Lemma rounded_product_not_None (c r : value) (k : Z) :
  rounded_product c k = Ok r -> is_None r = false.
Proof.
  unfold rounded_product. intros H. inv_bind H.
  eapply py_round_not_None, H.
Qed.

Lemma per_m_None : per_m VNone = Ok VNone.
Proof. reflexivity. Qed.

Lemma per_m_present (c : value) :
  is_None c = false -> per_m c = rounded_product c 1000000.
Proof. unfold per_m. intros ->. reflexivity. Qed.

(** What [per_m] returns for a source field, read off the result. *)
Lemma per_m_field (c r : value) :
  per_m c = Ok r ->
  (is_None c = true -> r = VNone)
  /\ (is_None c = false ->
      rounded_product c 1000000 = Ok r /\ is_None r = false).
Proof.
  intros H. split; intros Hc.
  - unfold per_m in H. rewrite Hc in H. now injection H as <-.
  - rewrite (per_m_present _ Hc) in H. split; [exact H |].
    eapply rounded_product_not_None, H.
Qed.

Lemma audio_in_per_min_spec (v : dict) (r : value) :
  audio_in_per_min v = Ok r ->
  (is_None (get v "input_cost_per_second") = false ->
     rounded_product (get v "input_cost_per_second") 60 = Ok r)
  /\ (is_None (get v "input_cost_per_second") = true ->
      is_None (get v "input_cost_per_audio_per_second") = false ->
      rounded_product (get v "input_cost_per_audio_per_second") 60 = Ok r)
  /\ (is_None (get v "input_cost_per_second") = true ->
      is_None (get v "input_cost_per_audio_per_second") = true ->
      r = VNone).
Proof.
  unfold audio_in_per_min, rounded_product. intros H.
  destruct (is_None (get v "input_cost_per_second")); simpl in H.
  - destruct (is_None (get v "input_cost_per_audio_per_second")); simpl in H.
    + injection H as <-. repeat split; intros; congruence.
    + repeat split; intros; congruence.
  - repeat split; intros; congruence.
Qed.

Section Properties.

Variable int_of_str : string -> option Z.


(** *** What a produced entry is made of *)

Lemma convert_entry_inv (key : string) (v : dict) (p : value) (e : Entry) :
  convert_entry int_of_str key v p = Ok (Some e) ->
  set_mem SKIP_MODES (get v "mode") = Ok false
  /\ table_get MODE_MAP (get v "mode") "chat" = Ok (mode e)
  /\ derive_model_id key (get_or v "litellm_provider" (VStr ""))
     = Ok (model_id e)
  /\ (if String.eqb (mode e) "embedding" then embedding_pricing v
      else general_pricing v) = Ok (pricing e)
  /\ provider e = p
  /\ capabilities e = caps v.
Proof.
  unfold convert_entry. intros H.
  inv_bind H. destruct a; [discriminate H |].
  inv_bind H. inv_bind H. inv_bind H. inv_bind H. inv_bind H.
  injection H as <-. simpl. auto 10.
Qed.

Lemma convert_entry_skipped (key : string) (v : dict) (p : value) (m : string) :
  get v "mode" = VStr m -> In m SKIP_MODES ->
  convert_entry int_of_str key v p = Ok None.
Proof.
  intros Hm Hin. unfold convert_entry. rewrite Hm.
  simpl in Hin. destruct Hin as [<- | [<- | [<- | []]]]; reflexivity.
Qed.

Lemma embedding_pricing_inv (v : dict) (pr : Pricing) :
  embedding_pricing v = Ok pr ->
  per_m (get v "input_cost_per_token") = Ok (embedding_per_m_tokens pr)
  /\ forall rate, In rate non_embedding_rates -> rate pr = VNone.
Proof.
  unfold embedding_pricing. intros H. inv_bind H. injection H as <-.
  split; [exact Ha |]. intros rate Hin. simpl in Hin.
  repeat (destruct Hin as [<- | Hin]; [reflexivity |]). destruct Hin.
Qed.

Lemma general_pricing_inv (v : dict) (pr : Pricing) :
  general_pricing v = Ok pr ->
  audio_in_per_min v = Ok (audio_input_per_minute pr)
  /\ (forall src rate, In (src, rate) per_token_rates ->
        per_m (get v src) = Ok (rate pr))
  /\ image_per_tile pr = get v "output_cost_per_image"
  /\ audio_output_per_character pr = get v "output_cost_per_character"
  /\ embedding_per_m_tokens pr = VNone.
Proof.
  unfold general_pricing. intros H.
  do 9 (inv_bind H). injection H as <-. simpl.
  repeat split; try assumption.
  intros src rate Hin. simpl in Hin.
  repeat (destruct Hin as [[= <- <-] | Hin]; [assumption |]). destruct Hin.
Qed.

(** C1 (amended): for every source mapping converted to an entry of a mode
    other than embedding, each per-token cost that is absent (null) gives
    a null rate and each one that is present gives
    [round(c * 1_000_000, 10)], which is never null; the audio-input rate
    is [round(c * 60, 10)] for the first present of
    [input_cost_per_second] and [input_cost_per_audio_per_second], and
    null when both are absent.  For an embedding entry only
    [input_cost_per_token] is converted, into the embedding rate, and
    every other rate, the audio-input one included, is null. *)
Theorem C1_pricing_unit_conversion
    (key : string) (v : dict) (p : value) (e : Entry) :
  convert_entry int_of_str key v p = Ok (Some e) ->
  (mode e <> "embedding" ->
     (forall src rate, In (src, rate) per_token_rates ->
        (is_None (get v src) = true -> rate (pricing e) = VNone)
        /\ (is_None (get v src) = false ->
            rounded_product (get v src) 1000000 = Ok (rate (pricing e))
            /\ is_None (rate (pricing e)) = false))
     /\ (is_None (get v "input_cost_per_second") = false ->
         rounded_product (get v "input_cost_per_second") 60
         = Ok (audio_input_per_minute (pricing e)))
     /\ (is_None (get v "input_cost_per_second") = true ->
         is_None (get v "input_cost_per_audio_per_second") = false ->
         rounded_product (get v "input_cost_per_audio_per_second") 60
         = Ok (audio_input_per_minute (pricing e)))
     /\ (is_None (get v "input_cost_per_second") = true ->
         is_None (get v "input_cost_per_audio_per_second") = true ->
         audio_input_per_minute (pricing e) = VNone))
  /\ (mode e = "embedding" ->
        (is_None (get v "input_cost_per_token") = true ->
           embedding_per_m_tokens (pricing e) = VNone)
        /\ (is_None (get v "input_cost_per_token") = false ->
            rounded_product (get v "input_cost_per_token") 1000000
            = Ok (embedding_per_m_tokens (pricing e))
            /\ is_None (embedding_per_m_tokens (pricing e)) = false)
        /\ (forall rate, In rate non_embedding_rates ->
              rate (pricing e) = VNone)).
Proof.
  intros H. apply convert_entry_inv in H.
  destruct H as (_ & _ & _ & Hpr & _). split.
  - intros Hmode. apply String.eqb_neq in Hmode. rewrite Hmode in Hpr.
    apply general_pricing_inv in Hpr.
    destruct Hpr as (Haudio & Hrates & _). split.
    + intros src rate Hin. apply per_m_field, Hrates, Hin.
    + apply audio_in_per_min_spec, Haudio.
  - intros Hmode. rewrite Hmode in Hpr. simpl in Hpr.
    apply embedding_pricing_inv in Hpr. destruct Hpr as (Hemb & Hnone).
    apply per_m_field in Hemb. destruct Hemb as (H1 & H2). auto.
Qed.

(** *** Capabilities *)

Lemma truthy_py_or (a b : value) :
  truthy (py_or a b) = truthy a || truthy b.
Proof. unfold py_or. destruct (truthy a) eqn:Ha; [exact Ha | reflexivity]. Qed.

Lemma convert_entry_caps_coupling
    (key : string) (v : dict) (p : value) (e : Entry) :
  convert_entry int_of_str key v p = Ok (Some e) ->
  json_mode (capabilities e) = function_calling (capabilities e)
  /\ streaming (capabilities e) = true.
Proof.
  intros H. apply convert_entry_inv in H.
  destruct H as (_ & _ & _ & _ & _ & ->). split; reflexivity.
Qed.

(** C8 (amended): the reasoning flag of a produced entry is true exactly
    when the source's reasoning-support flag is truthy or its
    reasoning-token price is truthy; a reasoning-token price of 0 with no
    reasoning-support flag leaves it false. *)
Theorem C8_reasoning_is_truthiness
    (key : string) (v : dict) (p : value) (e : Entry) :
  convert_entry int_of_str key v p = Ok (Some e) ->
  (reasoning (capabilities e) = true <->
     truthy (get v "supports_reasoning") = true
     \/ truthy (get v "input_cost_per_reasoning_token") = true)
  /\ (truthy (get v "supports_reasoning") = false ->
      get v "input_cost_per_reasoning_token" = VInt 0 ->
      reasoning (capabilities e) = false).
Proof.
  intros H. apply convert_entry_inv in H.
  destruct H as (_ & _ & _ & _ & _ & ->). unfold caps; simpl.
  rewrite truthy_py_or. split.
  - apply orb_true_iff.
  - intros -> ->. reflexivity.
Qed.

(** *** Fine-tuning rates *)

Lemma convert_entry_finetune_rates
    (key : string) (v : dict) (p : value) (e : Entry) :
  convert_entry int_of_str key v p = Ok (Some e) ->
  finetune_train_per_m_tokens (pricing e)
  = finetune_input_per_m_tokens (pricing e).
Proof.
  intros H. apply convert_entry_inv in H.
  destruct H as (_ & _ & _ & Hpr & _).
  destruct (String.eqb (mode e) "embedding").
  - apply embedding_pricing_inv in Hpr. destruct Hpr as (_ & Hnone).
    rewrite !Hnone; [reflexivity | simpl; auto 12 ..].
  - apply general_pricing_inv in Hpr. destruct Hpr as (_ & Hrates & _).
    assert (Htrain : per_m (get v "ft_input_cost_per_token")
                     = Ok (finetune_train_per_m_tokens (pricing e)))
      by (apply Hrates; simpl; auto 10).
    assert (Hinput : per_m (get v "ft_input_cost_per_token")
                     = Ok (finetune_input_per_m_tokens (pricing e)))
      by (apply Hrates; simpl; auto 10).
    congruence.
Qed.

(** *** One iteration of the main loop *)

Lemma py_or_empty_str (x : value) :
  truthy x = true -> py_or x (VStr "") = x.
Proof. unfold py_or. intros ->. reflexivity. Qed.

Lemma truthy_py_or_empty_str (x : value) :
  truthy (py_or x (VStr "")) = truthy x.
Proof. rewrite truthy_py_or. simpl. apply orb_false_r. Qed.

Lemma truthy_VStr (s : string) : truthy (VStr s) = true <-> s <> "".
Proof.
  simpl. rewrite negb_true_iff. apply String.eqb_neq.
Qed.

Lemma main_step_accepted
    (st : State) (key : string) (v : dict) (k : string) (e : Entry) :
  accepts int_of_str key v k e ->
  main_step int_of_str st (key, VDict v) = Ok (store k e st).
Proof.
  intros (Hkey & s & Hprov & Hs & Hconv & ->).
  unfold main_step. apply String.eqb_neq in Hkey. rewrite Hkey.
  rewrite truthy_py_or_empty_str, Hprov.
  apply truthy_VStr in Hs. rewrite Hs. simpl negb. cbv iota.
  rewrite (py_or_empty_str _ Hs), canonical_provider_str. simpl mbind.
  rewrite Hconv. simpl. unfold store.
  destruct (catalog st !! _); reflexivity.
Qed.

(** Every iteration that does not raise is one of the five outcomes. *)
Lemma main_step_cases (st st' : State) (key : string) (x : value) :
  main_step int_of_str st (key, x) = Ok st' ->
  (key = "sample_spec" /\ st' = skip incr_skipped_spec st)
  \/ (key <> "sample_spec" /\ (forall v, x <> VDict v) /\ st' = st)
  \/ (key <> "sample_spec" /\ exists v,
        x = VDict v /\ truthy (get v "litellm_provider") = false
        /\ st' = skip incr_skipped_no_provider st)
  \/ (key <> "sample_spec" /\ exists v p,
        x = VDict v /\ truthy (get v "litellm_provider") = true
        /\ canonical_provider (get v "litellm_provider") = Ok p
        /\ convert_entry int_of_str key v p = Ok None
        /\ st' = skip incr_skipped_mode st)
  \/ (exists v k e,
        x = VDict v /\ accepts int_of_str key v k e /\ st' = store k e st).
Proof.
  unfold main_step. intros H.
  destruct (String.eqb key "sample_spec") eqn:Hkey.
  { apply String.eqb_eq in Hkey. injection H as <-. left. auto. }
  apply String.eqb_neq in Hkey. right.
  destruct x as [| b | n | f | s | l | v];
    try (injection H as <-; left; repeat split; [exact Hkey | discriminate]).
  right. rewrite truthy_py_or_empty_str in H.
  destruct (truthy (get v "litellm_provider")) eqn:Htruthy; simpl in H.
  2: { injection H as <-. left. split; [exact Hkey |]. exists v. auto. }
  right. rewrite (py_or_empty_str _ Htruthy) in H.
  inv_bind H. rename a into p, Ha into Hcanon.
  inv_bind H. rename a into converted, Ha into Hconv.
  destruct converted as [e |].
  2: { injection H as <-. left. split; [exact Hkey |]. exists v, p. auto. }
  right. inv_bind H. rename a into pre, Ha into Hpre.
  destruct (canonical_provider_joinable _ _ _ Hcanon Hpre)
    as (s & Hs & -> & ->).
  exists v, ((canonical_name s ++ "/") ++ model_id e), e.
  split; [reflexivity |]. split.
  - split; [exact Hkey |]. exists s. rewrite Hs in Htruthy.
    apply truthy_VStr in Htruthy. auto.
  - unfold store. destruct (catalog st !! _); now injection H as <-.
Qed.

(** *** The has-pricing check *)

Lemma is_None_false (x : value) : is_None x = false <-> x <> VNone.
Proof. destruct x; simpl; split; congruence. Qed.

Lemma has_pricing_iff (e : Entry) :
  has_pricing e = true <->
  input_per_m_tokens (pricing e) <> VNone
  \/ output_per_m_tokens (pricing e) <> VNone
  \/ embedding_per_m_tokens (pricing e) <> VNone
  \/ image_per_tile (pricing e) <> VNone
  \/ audio_input_per_minute (pricing e) <> VNone
  \/ audio_output_per_character (pricing e) <> VNone.
Proof.
  unfold has_pricing. simpl. rewrite !orb_true_iff, !negb_true_iff.
  rewrite !is_None_false. intuition discriminate.
Qed.

(** A converted entry whose source has an input cost has pricing: the
    cost lands in the embedding rate or in the input rate. *)
Lemma input_cost_has_pricing
    (key : string) (v : dict) (p : value) (e : Entry) :
  convert_entry int_of_str key v p = Ok (Some e) ->
  is_None (get v "input_cost_per_token") = false ->
  has_pricing e = true.
Proof.
  intros H Hcost. apply has_pricing_iff.
  apply convert_entry_inv in H. destruct H as (_ & _ & _ & Hpr & _).
  destruct (String.eqb (mode e) "embedding").
  - apply embedding_pricing_inv in Hpr. destruct Hpr as (Hemb & _).
    apply per_m_field in Hemb. destruct Hemb as (_ & Hpresent).
    right; right; left. apply is_None_false, Hpresent, Hcost.
  - apply general_pricing_inv in Hpr. destruct Hpr as (_ & Hrates & _).
    assert (Hin : per_m (get v "input_cost_per_token")
                  = Ok (input_per_m_tokens (pricing e)))
      by (apply Hrates; simpl; auto).
    apply per_m_field in Hin. destruct Hin as (_ & Hpresent).
    left. apply is_None_false, Hpresent, Hcost.
Qed.

(** *** Storing an accepted entry *)

Lemma store_lookup_ne (k k' : string) (e : Entry) (st : State) :
  k <> k' -> catalog (store k e st) !! k' = catalog st !! k'.
Proof.
  intros Hne. unfold store.
  destruct (catalog st !! k) as [existing |]; simpl.
  - destruct (has_pricing e && negb (has_pricing existing));
      [apply lookup_insert_ne, Hne | reflexivity].
  - apply lookup_insert_ne, Hne.
Qed.

Lemma store_lookup_new (k : string) (e : Entry) (st : State) :
  catalog st !! k = None -> catalog (store k e st) !! k = Some e.
Proof. intros H. unfold store. rewrite H. simpl. apply lookup_insert_eq. Qed.

Lemma store_lookup_existing (k : string) (e existing : Entry) (st : State) :
  catalog st !! k = Some existing ->
  catalog (store k e st) !! k
  = Some (if has_pricing e && negb (has_pricing existing)
          then e else existing).
Proof.
  intros H. unfold store. rewrite H. simpl.
  destruct (has_pricing e && negb (has_pricing existing));
    [apply lookup_insert_eq | exact H].
Qed.

Lemma store_keeps_priced (k k' : string) (e e' : Entry) (st : State) :
  catalog st !! k' = Some e' -> has_pricing e' = true ->
  catalog (store k e st) !! k' = Some e'.
Proof.
  intros Hlook Hpriced. destruct (decide (k = k')) as [-> | Hne].
  - rewrite (store_lookup_existing _ _ _ _ Hlook), Hpriced.
    now rewrite andb_false_r.
  - now rewrite store_lookup_ne.
Qed.

Lemma store_written_size (k : string) (e : Entry) (st : State) :
  written (counters st) = size (catalog st) ->
  written (counters (store k e st)) = size (catalog (store k e st)).
Proof.
  intros Hinv. unfold store.
  destruct (catalog st !! k) as [existing |] eqn:Hlook; simpl.
  - destruct (has_pricing e && negb (has_pricing existing));
      [| exact Hinv].
    rewrite map_size_insert_Some; [exact Hinv | eauto].
  - rewrite map_size_insert_None by exact Hlook. now rewrite Hinv.
Qed.

Lemma store_origin (k k' : string) (e e' : Entry) (st : State) :
  catalog (store k e st) !! k' = Some e' ->
  catalog st !! k' = Some e' \/ (k' = k /\ e' = e).
Proof.
  intros H. destruct (decide (k = k')) as [<- | Hne].
  - destruct (catalog st !! k) as [existing |] eqn:Hlook.
    + rewrite (store_lookup_existing _ _ _ _ Hlook) in H.
      destruct (has_pricing e && negb (has_pricing existing));
        injection H as <-; auto.
    + rewrite (store_lookup_new _ _ _ Hlook) in H. injection H as <-. auto.
  - rewrite store_lookup_ne in H by exact Hne. auto.
Qed.

(** *** Runs *)

Lemma main_loop_app (items1 items2 : list (string * value)) (st : State) :
  main_loop int_of_str (items1 ++ items2) st
  = (st1 ← main_loop int_of_str items1 st; main_loop int_of_str items2 st1).
Proof.
  revert st. induction items1 as [| item items1 IH]; intros st; simpl.
  - reflexivity.
  - destruct (main_step int_of_str st item) as [st' | err]; simpl;
      [apply IH | reflexivity].
Qed.

Lemma main_step_keeps_priced
    (st st' : State) (item : string * value) (k : string) (e : Entry) :
  main_step int_of_str st item = Ok st' ->
  catalog st !! k = Some e -> has_pricing e = true ->
  catalog st' !! k = Some e.
Proof.
  destruct item as [key x]. intros Hstep Hlook Hpriced.
  apply main_step_cases in Hstep.
  destruct Hstep as [(_ & ->) | [(_ & _ & ->) | [(_ & v & _ & _ & ->)
    | [(_ & v & p & _ & _ & _ & _ & ->) | (v & k' & e' & _ & _ & ->)]]]];
    try exact Hlook.
  apply store_keeps_priced; assumption.
Qed.

Lemma main_step_written_size (st st' : State) (item : string * value) :
  main_step int_of_str st item = Ok st' ->
  written (counters st) = size (catalog st) ->
  written (counters st') = size (catalog st').
Proof.
  destruct item as [key x]. intros Hstep Hinv.
  apply main_step_cases in Hstep.
  destruct Hstep as [(_ & ->) | [(_ & _ & ->) | [(_ & v & _ & _ & ->)
    | [(_ & v & p & _ & _ & _ & _ & ->) | (v & k' & e' & _ & _ & ->)]]]];
    try exact Hinv.
  apply store_written_size, Hinv.
Qed.

(** Every entry of the catalog was there at the start or is the
    conversion of an item of the run. *)
Lemma main_loop_origin
    (items : list (string * value)) (st st' : State) (k : string) (e : Entry) :
  main_loop int_of_str items st = Ok st' ->
  catalog st' !! k = Some e ->
  catalog st !! k = Some e
  \/ exists key v, In (key, VDict v) items /\ accepts int_of_str key v k e.
Proof.
  revert st. induction items as [| [key x] items IH]; intros st Hrun Hlook.
  - injection Hrun as <-. auto.
  - simpl in Hrun. inv_bind Hrun. rename a into st1, Ha into Hstep.
    destruct (IH _ Hrun Hlook) as [Hmid | (key' & v' & Hin & Hacc)].
    2: { right. exists key', v'. split; [right; exact Hin | exact Hacc]. }
    apply main_step_cases in Hstep.
    destruct Hstep as [(_ & ->) | [(_ & _ & ->) | [(_ & v & _ & _ & ->)
      | [(_ & v & p & _ & _ & _ & _ & ->) | (v & k' & e' & -> & Hacc & ->)]]]];
      auto.
    apply store_origin in Hmid. destruct Hmid as [Hold | [-> ->]]; [auto |].
    right. exists key, v. split; [left; reflexivity | exact Hacc].
Qed.

(** *** Duplicate resolution *)

(** C2: when an accepted entry [e] arrives for a catalog key that already
    holds [existing], the duplicates counter goes up by one whatever
    happens to the catalog, and [e] replaces [existing] if and only if [e]
    has pricing and [existing] has none, where having pricing means that
    one of the input, output, embedding, image-tile, audio-input and
    audio-output rates is not null.  In a run over two items of the same
    catalog key, the first without pricing and the second with
    [input_cost_per_token] set, the catalog ends with the second entry and
    the duplicates counter is 1. *)
Theorem C2_duplicate_resolution :
  (forall st key v k e existing,
      accepts int_of_str key v k e ->
      catalog st !! k = Some existing ->
      exists st',
        main_step int_of_str st (key, VDict v) = Ok st'
        /\ duplicates (counters st') = S (duplicates (counters st))
        /\ (has_pricing e = true /\ has_pricing existing = false ->
            catalog st' = <[k := e]> (catalog st))
        /\ (~ (has_pricing e = true /\ has_pricing existing = false) ->
            catalog st' = catalog st))
  /\ (forall e,
        has_pricing e = true <->
        input_per_m_tokens (pricing e) <> VNone
        \/ output_per_m_tokens (pricing e) <> VNone
        \/ embedding_per_m_tokens (pricing e) <> VNone
        \/ image_per_tile (pricing e) <> VNone
        \/ audio_input_per_minute (pricing e) <> VNone
        \/ audio_output_per_character (pricing e) <> VNone)
  /\ (forall key1 v1 key2 v2 k e1 e2,
        accepts int_of_str key1 v1 k e1 ->
        accepts int_of_str key2 v2 k e2 ->
        has_pricing e1 = false ->
        is_None (get v2 "input_cost_per_token") = false ->
        exists st,
          main int_of_str (VDict [(key1, VDict v1); (key2, VDict v2)]) = Ok st
          /\ catalog st !! k = Some e2
          /\ duplicates (counters st) = 1%nat).
Proof.
  split; [| split].
  - intros st key v k e existing Hacc Hlook.
    exists (store k e st). split; [apply main_step_accepted, Hacc |].
    unfold store. rewrite Hlook. simpl. split; [reflexivity |].
    destruct (has_pricing e), (has_pricing existing); simpl; split;
      intros H; try reflexivity; try (destruct H; discriminate);
      exfalso; apply H; auto.
  - apply has_pricing_iff.
  - intros key1 v1 key2 v2 k e1 e2 Hacc1 Hacc2 Hunpriced Hcost.
    assert (Hpriced : has_pricing e2 = true).
    { destruct Hacc2 as (_ & s & _ & _ & Hconv & _).
      eapply input_cost_has_pricing; eassumption. }
    exists (store k e2 (store k e1 init_state)). split.
    + unfold main. cbn [main_loop].
      rewrite (main_step_accepted _ _ _ _ _ Hacc1). cbn [mbind result_bind].
      rewrite (main_step_accepted _ _ _ _ _ Hacc2). reflexivity.
    + assert (Hfirst : catalog (store k e1 init_state) !! k = Some e1)
        by (apply store_lookup_new, lookup_empty).
      split.
      * rewrite (store_lookup_existing _ _ _ _ Hfirst).
        now rewrite Hpriced, Hunpriced.
      * unfold store at 1. rewrite Hfirst. simpl.
        unfold store. simpl. rewrite lookup_empty. reflexivity.
Qed.

(** C3 (amended): once the catalog holds under a key an entry that has
    pricing, that is, one whose input, output, embedding, image-tile,
    audio-input or audio-output rate is not null, no later source item of
    the run replaces it, whether priced or not. *)
Theorem C3_priced_entry_is_kept
    (items1 items2 : list (string * value)) (st1 st2 : State)
    (k : string) (e : Entry) :
  main_loop int_of_str items1 init_state = Ok st1 ->
  main_loop int_of_str items2 st1 = Ok st2 ->
  catalog st1 !! k = Some e ->
  has_pricing e = true ->
  main int_of_str (VDict (items1 ++ items2)) = Ok st2
  /\ catalog st2 !! k = Some e.
Proof.
  intros Hrun1 Hrun2 Hlook Hpriced. split.
  - unfold main. rewrite main_loop_app, Hrun1. exact Hrun2.
  - clear Hrun1. revert st1 Hrun2 Hlook.
    induction items2 as [| item items2 IH]; intros st1 Hrun2 Hlook.
    + now injection Hrun2 as <-.
    + cbn [main_loop] in Hrun2. inv_bind Hrun2.
      apply (IH _ Hrun2). eapply main_step_keeps_priced; eassumption.
Qed.

(** C4 (amended): the source
    [{"gpt-4/foo": {"litellm_provider": "openai", "mode": "chat",
      "input_cost_per_token": 0.00003}}]
    gives a catalog with the single key ["openai/gpt-4/foo"], whose entry
    has [pricing.input_per_m_tokens == 30.0] and
    [capabilities.streaming == true]. *)
Theorem C4_gpt4_foo_scenario :
  exists st e,
    main int_of_str Samples.raw_gpt4_foo = Ok st
    /\ map_to_list (catalog st) = [("openai/gpt-4/foo", e)]
    /\ model_id e = "gpt-4/foo"
    /\ input_per_m_tokens (pricing e) = VFloat (Float64.of_Z 30)
    /\ streaming (capabilities e) = true.
Proof.
  eexists. eexists. split; [vm_compute; reflexivity |].
  split; [vm_compute; reflexivity |].
  repeat split; vm_compute; reflexivity.
Qed.

(** *** Skipped items *)

(** C5 (amended): an item with the reserved key ["sample_spec"], an item
    whose provider tag is missing or empty, and an item of an unsupported
    mode each add one to their own counter, [skipped_spec],
    [skipped_no_provider] and [skipped_mode]; an item whose value is not a
    record changes no counter.  In all four cases the catalog is left as
    it was and the run goes on with the items that follow. *)
Theorem C5_skip_categories
    (st : State) (key : string) (x : value) (rest : list (string * value)) :
  (key = "sample_spec" ->
     main_loop int_of_str ((key, x) :: rest) st
     = main_loop int_of_str rest (skip incr_skipped_spec st))
  /\ (key <> "sample_spec" -> (forall v, x <> VDict v) ->
      main_loop int_of_str ((key, x) :: rest) st
      = main_loop int_of_str rest st)
  /\ (forall v,
        key <> "sample_spec" -> x = VDict v ->
        truthy (get v "litellm_provider") = false ->
        main_loop int_of_str ((key, x) :: rest) st
        = main_loop int_of_str rest (skip incr_skipped_no_provider st))
  /\ (forall v p m,
        key <> "sample_spec" -> x = VDict v ->
        truthy (get v "litellm_provider") = true ->
        canonical_provider (get v "litellm_provider") = Ok p ->
        get v "mode" = VStr m -> In m SKIP_MODES ->
        main_loop int_of_str ((key, x) :: rest) st
        = main_loop int_of_str rest (skip incr_skipped_mode st))
  /\ (forall bump, catalog (skip bump st) = catalog st).
Proof.
  cbn [main_loop]. repeat split.
  - intros ->. reflexivity.
  - intros Hkey Hx. apply String.eqb_neq in Hkey.
    unfold main_step. rewrite Hkey.
    destruct x; try reflexivity. now destruct (Hx d).
  - intros v Hkey -> Hprov. apply String.eqb_neq in Hkey.
    unfold main_step. rewrite Hkey, truthy_py_or_empty_str, Hprov.
    reflexivity.
  - intros v p m Hkey -> Hprov Hcanon Hmode Hin.
    apply String.eqb_neq in Hkey.
    unfold main_step. rewrite Hkey, truthy_py_or_empty_str, Hprov.
    cbn [negb]. rewrite (py_or_empty_str _ Hprov), Hcanon.
    cbn [mbind result_bind].
    rewrite (convert_entry_skipped _ _ _ _ Hmode Hin). reflexivity.
Qed.

(** *** Properties of every produced entry *)

(** C7: in every entry that the conversion produces, and so in every entry
    of the final catalog, [json_mode] equals [function_calling] and
    [streaming] is true. *)
Theorem C7_json_mode_and_streaming :
  (forall key v p e,
      convert_entry int_of_str key v p = Ok (Some e) ->
      json_mode (capabilities e) = function_calling (capabilities e)
      /\ streaming (capabilities e) = true)
  /\ (forall raw st k e,
        main int_of_str raw = Ok st ->
        catalog st !! k = Some e ->
        json_mode (capabilities e) = function_calling (capabilities e)
        /\ streaming (capabilities e) = true).
Proof.
  split; [apply convert_entry_caps_coupling |].
  intros raw st k e Hrun Hlook.
  destruct raw as [| | | | | | items]; try discriminate Hrun.
  destruct (main_loop_origin _ _ _ _ _ Hrun Hlook)
    as [Hinit | (key & v & _ & (_ & s & _ & _ & Hconv & _))].
  - simpl in Hinit. rewrite lookup_empty in Hinit. discriminate.
  - eapply convert_entry_caps_coupling, Hconv.
Qed.

(** C9: in every produced entry whose mode is not embedding, and so in
    every such entry of the final catalog, the fine-tune training rate and
    the fine-tune input rate are equal: both are the conversion of the
    source field [ft_input_cost_per_token]. *)
Theorem C9_finetune_train_equals_input :
  (forall key v p e,
      convert_entry int_of_str key v p = Ok (Some e) ->
      mode e <> "embedding" ->
      per_m (get v "ft_input_cost_per_token")
      = Ok (finetune_train_per_m_tokens (pricing e))
      /\ per_m (get v "ft_input_cost_per_token")
         = Ok (finetune_input_per_m_tokens (pricing e))
      /\ finetune_train_per_m_tokens (pricing e)
         = finetune_input_per_m_tokens (pricing e))
  /\ (forall raw st k e,
        main int_of_str raw = Ok st ->
        catalog st !! k = Some e ->
        mode e <> "embedding" ->
        finetune_train_per_m_tokens (pricing e)
        = finetune_input_per_m_tokens (pricing e)).
Proof.
  split.
  - intros key v p e Hconv Hmode.
    split; [| split; [| eapply convert_entry_finetune_rates, Hconv]];
      apply convert_entry_inv in Hconv;
      destruct Hconv as (_ & _ & _ & Hpr & _);
      apply String.eqb_neq in Hmode; rewrite Hmode in Hpr;
      apply general_pricing_inv in Hpr; destruct Hpr as (_ & Hrates & _);
      apply Hrates; simpl; auto 10.
  - intros raw st k e Hrun Hlook _.
    destruct raw as [| | | | | | items]; try discriminate Hrun.
    destruct (main_loop_origin _ _ _ _ _ Hrun Hlook)
      as [Hinit | (key & v & _ & (_ & s & _ & _ & Hconv & _))].
    + simpl in Hinit. rewrite lookup_empty in Hinit. discriminate.
    + eapply convert_entry_finetune_rates, Hconv.
Qed.

(** *** The written counter *)

Lemma store_size_cases (k : string) (e : Entry) (st : State) :
  (is_Some (catalog st !! k)
   /\ size (catalog (store k e st)) = size (catalog st)
   /\ written (counters (store k e st)) = written (counters st))
  \/ (catalog st !! k = None
      /\ size (catalog (store k e st)) = S (size (catalog st))
      /\ written (counters (store k e st)) = S (written (counters st))).
Proof.
  unfold store. destruct (catalog st !! k) as [existing |] eqn:Hlook; simpl.
  - left. split; [eauto |]. split; [| reflexivity].
    destruct (has_pricing e && negb (has_pricing existing)); [| reflexivity].
    apply map_size_insert_Some. eauto.
  - right. split; [reflexivity |]. split; [| reflexivity].
    now apply map_size_insert_None.
Qed.

(** C10: at the end of every run the [written] counter is the number of
    keys of the catalog.  Each iteration either leaves both the counter
    and the number of keys as they were, or adds one to both; an entry
    that arrives for a key already in the catalog leaves the counter as
    it was, also when it replaces the entry there. *)
Theorem C10_written_counts_keys :
  (forall raw st,
      main int_of_str raw = Ok st ->
      written (counters st) = size (catalog st))
  /\ (forall st item st',
        main_step int_of_str st item = Ok st' ->
        (size (catalog st') = size (catalog st)
         /\ written (counters st') = written (counters st))
        \/ (size (catalog st') = S (size (catalog st))
            /\ written (counters st') = S (written (counters st))))
  /\ (forall st key v k e existing,
        accepts int_of_str key v k e ->
        catalog st !! k = Some existing ->
        exists st',
          main_step int_of_str st (key, VDict v) = Ok st'
          /\ written (counters st') = written (counters st)).
Proof.
  split; [| split].
  - intros raw st Hrun.
    destruct raw as [| | | | | | items]; try discriminate Hrun.
    unfold main in Hrun.
    assert (Hinit : written (counters init_state) = size (catalog init_state))
      by reflexivity.
    revert Hrun Hinit. generalize init_state.
    induction items as [| item items IH]; intros st0 Hrun Hinv.
    + now injection Hrun as <-.
    + cbn [main_loop] in Hrun. inv_bind Hrun.
      apply (IH _ Hrun). eapply main_step_written_size; eassumption.
  - intros st [key x] st' Hstep. apply main_step_cases in Hstep.
    destruct Hstep as [(_ & ->) | [(_ & _ & ->) | [(_ & v & _ & _ & ->)
      | [(_ & v & p & _ & _ & _ & _ & ->) | (v & k' & e' & _ & _ & ->)]]]];
      auto.
    destruct (store_size_cases k' e' st) as [(_ & Hs & Hw) | (_ & Hs & Hw)];
      auto.
  - intros st key v k e existing Hacc Hlook.
    exists (store k e st). split; [apply main_step_accepted, Hacc |].
    unfold store. rewrite Hlook. reflexivity.
Qed.

End Properties.

(** * The statements at sample data

    The runs below use [IntOfStr.parse] for [int] on strings. *)

(** Decides [accepts] at concrete data, once the entry is known. *)
Ltac accepts_by_computation p :=
  split; [discriminate |];
  exists p; split; [reflexivity |]; split; [discriminate |];
  split; [vm_compute; reflexivity | reflexivity].

(** C6 at the provider [chatgpt], whose canonical name is [openai]: one key
    for each of the three cases. *)
Lemma C6_witness :
  canonical_provider (VStr "chatgpt") = Ok (VStr "openai")
  /\ derive_model_id "chatgpt/gpt-4o" (VStr "chatgpt") = Ok "gpt-4o"
  /\ derive_model_id "openai/gpt-4o" (VStr "chatgpt") = Ok "gpt-4o"
  /\ derive_model_id "gpt-4o" (VStr "chatgpt") = Ok "gpt-4o".
Proof.
  split; [reflexivity |].
  split; [| split].
  - apply (proj1 (C6_derive_model_id_prefix_rule
                    "chatgpt/gpt-4o" "chatgpt" "openai" eq_refl)).
    reflexivity.
  - apply (proj1 (proj2 (C6_derive_model_id_prefix_rule
                           "openai/gpt-4o" "chatgpt" "openai" eq_refl)));
      reflexivity.
  - apply (proj2 (proj2 (C6_derive_model_id_prefix_rule
                           "gpt-4o" "chatgpt" "openai" eq_refl)));
      reflexivity.
Defined.

(** Records, for the entry [e] of the goal, that it is the conversion of
    the source mapping [v]. *)
Ltac assert_converted H key v p e :=
  assert (H : convert_entry IntOfStr.parse key v p = Ok (Some e))
    by (vm_compute; reflexivity).

(** C1 at a chat model with a float input cost, no output cost and the
    second audio field only. *)
Lemma C1_witness :
  exists e,
    convert_entry IntOfStr.parse "gpt-x" Samples.chat_with_audio (VStr "openai")
    = Ok (Some e)
    /\ mode e <> "embedding"
    /\ rounded_product (VFloat Samples.f_3e_5) 1000000
       = Ok (input_per_m_tokens (pricing e))
    /\ output_per_m_tokens (pricing e) = VNone
    /\ rounded_product (VInt 2) 60 = Ok (audio_input_per_minute (pricing e)).
Proof.
  eexists. split; [vm_compute; reflexivity |].
  assert (Hmode : "chat" <> "embedding") by discriminate.
  split; [exact Hmode |].
  match goal with
  | |- context [input_per_m_tokens (pricing ?e)] =>
      assert_converted Hconv "gpt-x" Samples.chat_with_audio (VStr "openai") e
  end.
  destruct (C1_pricing_unit_conversion IntOfStr.parse _ _ _ _ Hconv)
    as (Hgeneral & _).
  destruct (Hgeneral Hmode) as (Hrates & _ & Haudio & _).
  split; [| split].
  - apply (Hrates "input_cost_per_token" input_per_m_tokens);
      [simpl; auto | reflexivity].
  - apply (Hrates "output_cost_per_token" output_per_m_tokens);
      [simpl; auto | reflexivity].
  - apply Haudio; reflexivity.
Defined.

(** C1 as stated fails on an embedding entry: its output cost and its
    per-second audio cost are present, and the output and audio-input rates
    are null; and the audio-input rate of a transcription model is the
    rounded product, which differs from the product by 60. *)
Lemma C1_counterexample :
  (exists e,
      convert_entry IntOfStr.parse "text-embedding-3"
        Samples.embedding_with_extras (VStr "openai") = Ok (Some e)
      /\ get Samples.embedding_with_extras "output_cost_per_token" = VInt 2
      /\ rounded_product (VInt 2) 1000000 = Ok (VInt 2000000)
      /\ output_per_m_tokens (pricing e) = VNone
      /\ get Samples.embedding_with_extras "input_cost_per_second" = VInt 1
      /\ rounded_product (VInt 1) 60 = Ok (VInt 60)
      /\ audio_input_per_minute (pricing e) = VNone)
  /\ (exists e product,
        convert_entry IntOfStr.parse "whisper-1"
          Samples.transcriber (VStr "openai") = Ok (Some e)
        /\ py_mul (get Samples.transcriber "input_cost_per_second") 60
           = Ok product
        /\ audio_input_per_minute (pricing e) <> product).
Proof.
  split.
  - eexists. split; [vm_compute; reflexivity |].
    repeat split; vm_compute; reflexivity.
  - eexists. eexists. split; [vm_compute; reflexivity |].
    split; [vm_compute; reflexivity |].
    vm_compute. discriminate.
Defined.

(** C2 at two source keys of [openai/foo], unpriced then priced. *)
Lemma C2_witness :
  exists st e2,
    main IntOfStr.parse Samples.raw_unpriced_then_priced = Ok st
    /\ catalog st !! "openai/foo" = Some e2
    /\ input_per_m_tokens (pricing e2) = VFloat (Float64.of_Z 30)
    /\ duplicates (counters st) = 1%nat.
Proof.
  edestruct (proj2 (proj2 (C2_duplicate_resolution IntOfStr.parse))
               "openai/foo" Samples.unpriced "foo" Samples.priced "openai/foo")
    as (st & Hrun & Hlook & Hdup).
  - accepts_by_computation "openai".
  - accepts_by_computation "openai".
  - reflexivity.
  - reflexivity.
  - exists st. eexists. split; [exact Hrun |]. split; [exact Hlook |].
    split; [vm_compute; reflexivity | exact Hdup].
Defined.

(** C3 at a priced entry followed by a priced and an unpriced duplicate. *)
Lemma C3_witness :
  exists st1 st2 e,
    main_loop IntOfStr.parse [("openai/foo", VDict Samples.priced)] init_state
    = Ok st1
    /\ main_loop IntOfStr.parse
         [("foo", VDict Samples.priced_later);
          ("chatgpt/foo", VDict Samples.unpriced)] st1 = Ok st2
    /\ catalog st1 !! "openai/foo" = Some e
    /\ has_pricing e = true
    /\ catalog st2 !! "openai/foo" = Some e.
Proof.
  eexists. eexists. eexists.
  split; [vm_compute; reflexivity |].
  split; [vm_compute; reflexivity |].
  split; [vm_compute; reflexivity |].
  split; [vm_compute; reflexivity |].
  eapply (fun H1 H2 H3 H4 =>
            proj2 (C3_priced_entry_is_kept IntOfStr.parse
                     [("openai/foo", VDict Samples.priced)]
                     [("foo", VDict Samples.priced_later);
                      ("chatgpt/foo", VDict Samples.unpriced)]
                     _ _ "openai/foo" _ H1 H2 H3 H4));
    vm_compute; reflexivity.
Defined.

(** C3 as stated fails: the first entry has a non-null price, its
    cache-read rate, and the second entry for the key replaces it. *)
Lemma C3_counterexample :
  exists st1 st2 e1 e2,
    main_loop IntOfStr.parse
      [("openai/foo", VDict Samples.cache_priced)] init_state = Ok st1
    /\ catalog st1 !! "openai/foo" = Some e1
    /\ cache_read_per_m_tokens (pricing e1) = VInt 1000000
    /\ main_loop IntOfStr.parse [("foo", VDict Samples.priced)] st1 = Ok st2
    /\ catalog st2 !! "openai/foo" = Some e2
    /\ cache_read_per_m_tokens (pricing e2) = VNone
    /\ e2 <> e1.
Proof.
  do 4 eexists.
  split; [vm_compute; reflexivity |].
  split; [vm_compute; reflexivity |].
  split; [vm_compute; reflexivity |].
  split; [vm_compute; reflexivity |].
  split; [vm_compute; reflexivity |].
  split; [vm_compute; reflexivity |].
  intros Heq. apply (f_equal (fun e => cache_read_per_m_tokens (pricing e))) in Heq.
  vm_compute in Heq. discriminate Heq.
Defined.

(** C4 as stated fails: the run leaves nothing under ["openai/foo"]. *)
Lemma C4_counterexample :
  exists st,
    main IntOfStr.parse Samples.raw_gpt4_foo = Ok st
    /\ catalog st !! "openai/foo" = None
    /\ is_Some (catalog st !! "openai/gpt-4/foo").
Proof.
  eexists. split; [vm_compute; reflexivity |].
  split; [vm_compute; reflexivity |].
  vm_compute. eexists. reflexivity.
Defined.

(** C5 at a run with one item of each skip category before a model. *)
Lemma C5_witness :
  exists st,
    main IntOfStr.parse Samples.raw_with_skips = Ok st
    /\ skipped_spec (counters st) = 1%nat
    /\ skipped_no_provider (counters st) = 1%nat
    /\ skipped_mode (counters st) = 1%nat
    /\ written (counters st) = 1%nat
    /\ size (catalog st) = 1%nat.
Proof.
  eexists. split.
  - unfold main, Samples.raw_with_skips.
    (* the reserved key *)
    rewrite (proj1 (C5_skip_categories IntOfStr.parse _ _ _ _) eq_refl).
    (* a value that is not a record *)
    rewrite (proj1 (proj2 (C5_skip_categories IntOfStr.parse _ _ _ _)));
      [| discriminate | discriminate].
    (* no provider tag *)
    rewrite (proj1 (proj2 (proj2 (C5_skip_categories IntOfStr.parse _ _ _ _)))
               Samples.no_provider);
      [| discriminate | reflexivity | reflexivity].
    (* an unsupported mode *)
    rewrite (proj1 (proj2 (proj2 (proj2
               (C5_skip_categories IntOfStr.parse _ _ _ _))))
               Samples.reranker (VStr "cohere") "rerank");
      [| discriminate | reflexivity | reflexivity | reflexivity | reflexivity
       | simpl; auto].
    vm_compute. reflexivity.
  - repeat split; vm_compute; reflexivity.
Defined.

(** C5 as stated fails: a value that is not a record is passed over with
    every counter left at zero. *)
Lemma C5_counterexample :
  main IntOfStr.parse (VDict [("not-a-record", VStr "text")]) = Ok init_state
  /\ counters init_state
     = {| skipped_spec := 0; skipped_mode := 0; skipped_no_provider := 0;
          duplicates := 0; written := 0 |}.
Proof. split; reflexivity. Defined.

(** C7 at the catalog of the [gpt-4/foo] run. *)
Lemma C7_witness :
  exists st e,
    main IntOfStr.parse Samples.raw_gpt4_foo = Ok st
    /\ catalog st !! "openai/gpt-4/foo" = Some e
    /\ json_mode (capabilities e) = function_calling (capabilities e)
    /\ streaming (capabilities e) = true.
Proof.
  eexists. eexists.
  split; [vm_compute; reflexivity |].
  split; [vm_compute; reflexivity |].
  eapply (proj2 (C7_json_mode_and_streaming IntOfStr.parse)
            Samples.raw_gpt4_foo _ "openai/gpt-4/foo");
    vm_compute; reflexivity.
Defined.

(** C8 at a model whose reasoning-support flag is set. *)
Lemma C8_witness :
  exists e,
    convert_entry IntOfStr.parse "gpt-x" Samples.chat_with_audio (VStr "openai")
    = Ok (Some e)
    /\ truthy (get Samples.chat_with_audio "supports_reasoning") = true
    /\ reasoning (capabilities e) = true.
Proof.
  eexists. split; [vm_compute; reflexivity |].
  split; [reflexivity |].
  match goal with
  | |- reasoning (capabilities ?e) = true =>
      assert_converted Hconv "gpt-x" Samples.chat_with_audio (VStr "openai") e
  end.
  apply (proj1 (C8_reasoning_is_truthiness IntOfStr.parse _ _ _ _ Hconv)).
  left. reflexivity.
Defined.

(** C8 as stated fails: a reasoning-token price of 0 is present and is
    converted, and the reasoning flag is false. *)
Lemma C8_counterexample :
  exists e,
    convert_entry IntOfStr.parse "o1-free" Samples.free_reasoning (VStr "openai")
    = Ok (Some e)
    /\ get Samples.free_reasoning "input_cost_per_reasoning_token" = VInt 0
    /\ reasoning_per_m_tokens (pricing e) = VInt 0
    /\ reasoning (capabilities e) = false.
Proof.
  eexists. split; [vm_compute; reflexivity |].
  repeat split; vm_compute; reflexivity.
Defined.

(** C9 at a chat model with a fine-tuning input cost of 3 per token. *)
Lemma C9_witness :
  exists e,
    convert_entry IntOfStr.parse "gpt-x" Samples.chat_with_audio (VStr "openai")
    = Ok (Some e)
    /\ mode e <> "embedding"
    /\ finetune_train_per_m_tokens (pricing e) = VInt 3000000
    /\ finetune_train_per_m_tokens (pricing e)
       = finetune_input_per_m_tokens (pricing e).
Proof.
  eexists. split; [vm_compute; reflexivity |].
  assert (Hmode : "chat" <> "embedding") by discriminate.
  split; [exact Hmode |].
  split; [vm_compute; reflexivity |].
  match goal with
  | |- finetune_train_per_m_tokens (pricing ?e) = _ =>
      assert_converted Hconv "gpt-x" Samples.chat_with_audio (VStr "openai") e
  end.
  apply (proj1 (C9_finetune_train_equals_input IntOfStr.parse) _ _ _ _
           Hconv Hmode).
Defined.

(** C10 at a run with one duplicate: two items, one key. *)
Lemma C10_witness :
  exists st,
    main IntOfStr.parse Samples.raw_unpriced_then_priced = Ok st
    /\ written (counters st) = 1%nat
    /\ written (counters st) = size (catalog st).
Proof.
  eexists. split; [vm_compute; reflexivity |].
  split; [vm_compute; reflexivity |].
  apply (proj1 (C10_written_counts_keys IntOfStr.parse)
           Samples.raw_unpriced_then_priced).
  vm_compute. reflexivity.
Defined.

(** * Further properties of the converter *)

(** ** Tables *)

Lemma assoc_In_values {A : Type} (k : string) (t : list (string * A)) (x : A) :
  assoc k t = Some x -> In x (map snd t).
Proof.
  induction t as [| [k' y] t IH]; simpl; [discriminate |].
  destruct (String.eqb k k'); [intros [= ->]; auto | auto].
Qed.

(** No alias target is itself an alias. *)
Lemma alias_targets_are_canonical :
  forallb (fun c => match assoc c PROVIDER_ALIASES with
                    | None => true
                    | Some _ => false
                    end)
          (map snd PROVIDER_ALIASES) = true.
Proof. vm_compute. reflexivity. Qed.

Lemma canonical_name_idempotent (p : string) :
  canonical_name (canonical_name p) = canonical_name p.
Proof.
  unfold canonical_name at 2 3.
  destruct (assoc p PROVIDER_ALIASES) as [c |] eqn:Hp; simpl.
  - apply assoc_In_values in Hp.
    pose proof alias_targets_are_canonical as Hall.
    rewrite forallb_forall in Hall. specialize (Hall c Hp).
    unfold canonical_name. destruct (assoc c PROVIDER_ALIASES);
      [discriminate | reflexivity].
  - unfold canonical_name. now rewrite Hp.
Qed.

(** X1: canonicalising a provider twice is canonicalising it once: what
    [canonical_provider] returns is its own canonical provider. *)
Theorem X1_canonical_provider_idempotent (p c : value) :
  canonical_provider p = Ok c -> canonical_provider c = Ok c.
Proof.
  destruct p as [| b | n | x | s | l | d]; try discriminate;
    try (intros [= <-]; reflexivity).
  rewrite canonical_provider_str. intros [= <-].
  rewrite canonical_provider_str. now rewrite canonical_name_idempotent.
Qed.

(** ** What [per_m] accepts and returns *)

Lemma py_round_is_rate (x r : value) (n : N) :
  py_round x n = Ok r -> is_rate r = true.
Proof.
  unfold py_round.
  destruct x as [| b | k | f | s | l | d]; try discriminate;
    try (intros [= <-]; reflexivity).
  destruct f as [sg | sg | | sg m e]; try (intros [= <-]; reflexivity).
  destruct (Float64.round_ndigits (S754_finite sg m e) n); try discriminate;
    intros [= <-]; reflexivity.
Qed.

Lemma py_round_no_TypeError_on_numbers (x : value) (n : N) :
  is_rate x = true -> x <> VNone -> py_round x n <> Raise TypeError.
Proof.
  unfold py_round.
  destruct x as [| b | k | f | s | l | d]; try discriminate; try congruence.
  intros _ _. destruct f as [sg | sg | | sg m e]; try discriminate.
  destruct (Float64.round_ndigits (S754_finite sg m e) n); discriminate.
Qed.

Lemma per_m_is_rate (c r : value) : per_m c = Ok r -> is_rate r = true.
Proof.
  unfold per_m. destruct (is_None c); [intros [= <-]; reflexivity |].
  intros H. inv_bind H. eapply py_round_is_rate, H.
Qed.

(** A cost that [per_m] converts is null, a bool, an int or a float. *)
Lemma per_m_Ok_source (c r : value) :
  per_m c = Ok r ->
  match c with
  | VNone | VBool _ | VInt _ | VFloat _ => True
  | VStr _ | VList _ | VDict _ => False
  end.
Proof.
  destruct c as [| b | k | f | s | l | d]; try exact (fun _ => I);
    unfold per_m; simpl; discriminate.
Qed.

Lemma per_m_float_no_TypeError (f : spec_float) :
  per_m (VFloat f) <> Raise TypeError.
Proof.
  unfold per_m, py_mul. cbn [is_None].
  destruct (Float64.of_Z 1000000); cbn [mbind result_bind];
    try discriminate;
    (apply py_round_no_TypeError_on_numbers; [reflexivity | discriminate]).
Qed.

(** X2: [per_m] raises [TypeError] exactly on a string, a list or a
    mapping; an integer cost is converted exactly, to the integer
    [n * 1_000_000]. *)
Theorem X2_per_m_type_errors :
  (forall c,
      per_m c = Raise TypeError <->
      (exists s, c = VStr s) \/ (exists l, c = VList l) \/ (exists d, c = VDict d))
  /\ (forall n, per_m (VInt n) = Ok (VInt (n * 1000000))).
Proof.
  split; [| reflexivity].
  intros c. split.
  - destruct c as [| b | k | f | s | l | d]; eauto;
      try (unfold per_m; simpl; discriminate).
    intros H. now apply per_m_float_no_TypeError in H.
  - intros [[s ->] | [[l ->] | [d ->]]]; reflexivity.
Qed.

Section Coverage.

Variable int_of_str : string -> option Z.

(** ** Which mappings are converted, and to what *)

Lemma set_mem_true (set : list string) (x : value) :
  set_mem set x = Ok true <-> exists m, x = VStr m /\ In m set.
Proof.
  split.
  - destruct x as [| b | n | f | s | l | d]; simpl; try discriminate.
    intros [= H]. apply existsb_exists in H. destruct H as (m & Hin & Heq).
    apply String.eqb_eq in Heq. subst m. eauto.
  - intros (m & -> & Hin). simpl. f_equal. apply existsb_exists.
    exists m. split; [exact Hin | apply String.eqb_refl].
Qed.

(** The fields of a produced entry that do not depend on pricing. *)
Lemma convert_entry_fixed_fields
    (key : string) (v : dict) (p : value) (e : Entry) :
  convert_entry int_of_str key v p = Ok (Some e) ->
  lifecycle e = lifecycle_of v
  /\ updated_at e = "2026-02-28"
  /\ display_name e = py_or (get v "display_name") (VStr (model_id e))
  /\ source e = py_or (get v "source") (VStr "").
Proof.
  unfold convert_entry. intros H.
  inv_bind H. destruct a; [discriminate H |].
  do 5 (inv_bind H). injection H as <-. simpl. auto.
Qed.

(** X3: [convert_entry] returns [None] exactly when the mode of the source
    mapping is one of the strings of [SKIP_MODES]; every other mapping
    gives an entry or raises. *)
Theorem X3_skipped_iff_skip_mode (key : string) (v : dict) (p : value) :
  convert_entry int_of_str key v p = Ok None <->
  exists m, get v "mode" = VStr m /\ In m SKIP_MODES.
Proof.
  split.
  - unfold convert_entry. intros H. inv_bind H. destruct a.
    + apply set_mem_true, Ha.
    + do 5 (inv_bind H). discriminate H.
  - intros (m & Hm & Hin). eapply convert_entry_skipped; eassumption.
Qed.

Lemma MODE_MAP_values (s : string) :
  In (default "chat" (assoc s MODE_MAP)) CATALOG_MODES.
Proof.
  destruct (assoc s MODE_MAP) as [m |] eqn:Hs; [| simpl; auto].
  apply assoc_In_values in Hs. simpl in Hs. simpl.
  intuition (subst; auto 10).
Qed.

Lemma convert_entry_mode (key : string) (v : dict) (p : value) (e : Entry) :
  convert_entry int_of_str key v p = Ok (Some e) ->
  In (mode e) CATALOG_MODES
  /\ (forall m, get v "mode" = VStr m -> ~ In m SKIP_MODES)
  /\ ((forall m, get v "mode" = VStr m -> assoc m MODE_MAP = None) ->
      mode e = "chat").
Proof.
  intros H. apply convert_entry_inv in H.
  destruct H as (Hskip & Hmode & _). split; [| split].
  - destruct (get v "mode") as [| b | n | f | s | l | d];
      try discriminate Hmode;
      unfold table_get in Hmode; injection Hmode as <-;
      solve [simpl; auto | apply MODE_MAP_values].
  - intros m Hm Hin.
    assert (Htrue : set_mem SKIP_MODES (get v "mode") = Ok true)
      by (apply set_mem_true; eauto).
    congruence.
  - intros Hunknown.
    destruct (get v "mode") as [| b | n | f | s | l | d];
      try discriminate Hmode;
      try (injection Hmode as <-; reflexivity).
    unfold table_get in Hmode. rewrite (Hunknown s eq_refl) in Hmode.
    now injection Hmode as <-.
Qed.

(** X4: the mode of every produced entry, and so of every entry of the
    final catalog, is one of [chat], [embedding], [image], [audio_in] and
    [audio_out]; a source mode that is missing, not a string, or a string
    that [MODE_MAP] does not list (and that is not skipped) gives
    [chat]. *)
Theorem X4_mode_is_a_catalog_mode :
  (forall key v p e,
      convert_entry int_of_str key v p = Ok (Some e) ->
      In (mode e) CATALOG_MODES
      /\ ((forall m, get v "mode" = VStr m -> assoc m MODE_MAP = None) ->
          mode e = "chat"))
  /\ (forall raw st k e,
        main int_of_str raw = Ok st ->
        catalog st !! k = Some e ->
        In (mode e) CATALOG_MODES).
Proof.
  split.
  - intros key v p e H. apply convert_entry_mode in H. tauto.
  - intros raw st k e Hrun Hlook.
    destruct raw as [| | | | | | items]; try discriminate Hrun.
    destruct (main_loop_origin _ _ _ _ _ _ Hrun Hlook)
      as [Hinit | (key & v & _ & (_ & s & _ & _ & Hconv & _))].
    + simpl in Hinit. rewrite lookup_empty in Hinit. discriminate.
    + eapply convert_entry_mode, Hconv.
Qed.

(** X5: the two pricing shapes exclude each other.  An entry whose
    embedding rate is not null is an embedding entry, and every other rate
    of it is null; this holds for every produced entry and for every entry
    of the final catalog. *)
Theorem X5_embedding_rate_excludes_the_others :
  (forall key v p e,
      convert_entry int_of_str key v p = Ok (Some e) ->
      embedding_per_m_tokens (pricing e) <> VNone ->
      mode e = "embedding"
      /\ forall rate, In rate non_embedding_rates -> rate (pricing e) = VNone)
  /\ (forall raw st k e,
        main int_of_str raw = Ok st ->
        catalog st !! k = Some e ->
        embedding_per_m_tokens (pricing e) <> VNone ->
        mode e = "embedding"
        /\ forall rate, In rate non_embedding_rates -> rate (pricing e) = VNone).
Proof.
  assert (Hconvert : forall key v p e,
             convert_entry int_of_str key v p = Ok (Some e) ->
             embedding_per_m_tokens (pricing e) <> VNone ->
             mode e = "embedding"
             /\ forall rate, In rate non_embedding_rates ->
                             rate (pricing e) = VNone).
  { intros key v p e H Hemb. apply convert_entry_inv in H.
    destruct H as (_ & _ & _ & Hpr & _).
    destruct (String.eqb_spec (mode e) "embedding") as [Hmode | Hmode].
    - split; [exact Hmode |]. apply (embedding_pricing_inv _ _ Hpr).
    - apply general_pricing_inv in Hpr.
      destruct Hpr as (_ & _ & _ & _ & Hnone). contradiction. }
  split; [exact Hconvert |].
  intros raw st k e Hrun Hlook.
  destruct raw as [| | | | | | items]; try discriminate Hrun.
  destruct (main_loop_origin _ _ _ _ _ _ Hrun Hlook)
    as [Hinit | (key & v & _ & (_ & s & _ & _ & Hconv & _))].
  - simpl in Hinit. rewrite lookup_empty in Hinit. discriminate.
  - eapply Hconvert, Hconv.
Qed.

(** ** The rates of a produced entry *)

Lemma audio_in_per_min_is_rate (v : dict) (r : value) :
  audio_in_per_min v = Ok r -> is_rate r = true.
Proof.
  unfold audio_in_per_min. intros H.
  destruct (is_None (get v "input_cost_per_second")); simpl in H.
  - destruct (is_None (get v "input_cost_per_audio_per_second")); simpl in H.
    + now injection H as <-.
    + inv_bind H. eapply py_round_is_rate, H.
  - inv_bind H. eapply py_round_is_rate, H.
Qed.

Lemma convert_entry_rates_typed
    (key : string) (v : dict) (p : value) (e : Entry) :
  convert_entry int_of_str key v p = Ok (Some e) ->
  forall rate, In rate computed_rates -> is_rate (rate (pricing e)) = true.
Proof.
  intros H rate Hin. apply convert_entry_inv in H.
  destruct H as (_ & _ & _ & Hpr & _).
  destruct (String.eqb (mode e) "embedding").
  - apply embedding_pricing_inv in Hpr. destruct Hpr as (Hemb & Hnone).
    apply per_m_is_rate in Hemb. simpl in Hin.
    repeat (destruct Hin as [<- | Hin];
            [first [exact Hemb | rewrite Hnone; [reflexivity | simpl; auto 12]] |]).
    destruct Hin.
  - apply general_pricing_inv in Hpr.
    destruct Hpr as (Haudio & Hrates & _ & _ & Hemb).
    apply audio_in_per_min_is_rate in Haudio.
    assert (Hper : forall src r, In (src, r) per_token_rates ->
                                 is_rate (r (pricing e)) = true)
      by (intros src r Hr; eapply per_m_is_rate, Hrates, Hr).
    simpl in Hin.
    repeat (destruct Hin as [<- | Hin];
            [first [exact Haudio | rewrite Hemb; reflexivity
                   | eapply Hper; simpl; eauto 10] |]).
    destruct Hin.
Qed.

(** X6: every rate that the conversion computes (all of them but the
    image-tile and audio-output rates, which are copied from the source as
    they are) is null, an int or a float, in every produced entry and in
    every entry of the final catalog; and a general entry is only produced
    when none of its per-token source costs is a string, a list or a
    mapping. *)
Theorem X6_computed_rates_are_numbers_or_null :
  (forall key v p e,
      convert_entry int_of_str key v p = Ok (Some e) ->
      (forall rate, In rate computed_rates -> is_rate (rate (pricing e)) = true)
      /\ (mode e <> "embedding" ->
          forall src rate, In (src, rate) per_token_rates ->
            match get v src with
            | VStr _ | VList _ | VDict _ => False
            | _ => True
            end))
  /\ (forall raw st k e,
        main int_of_str raw = Ok st ->
        catalog st !! k = Some e ->
        forall rate, In rate computed_rates -> is_rate (rate (pricing e)) = true).
Proof.
  split.
  - intros key v p e H. split; [eapply convert_entry_rates_typed, H |].
    intros Hmode src rate Hin. apply convert_entry_inv in H.
    destruct H as (_ & _ & _ & Hpr & _).
    apply String.eqb_neq in Hmode. rewrite Hmode in Hpr.
    apply general_pricing_inv in Hpr. destruct Hpr as (_ & Hrates & _).
    specialize (Hrates src rate Hin). apply per_m_Ok_source in Hrates.
    destruct (get v src); tauto.
  - intros raw st k e Hrun Hlook.
    destruct raw as [| | | | | | items]; try discriminate Hrun.
    destruct (main_loop_origin _ _ _ _ _ _ Hrun Hlook)
      as [Hinit | (key & v & _ & (_ & s & _ & _ & Hconv & _))].
    + simpl in Hinit. rewrite lookup_empty in Hinit. discriminate.
    + eapply convert_entry_rates_typed, Hconv.
Qed.

(** ** Lifecycle *)

(** X7: in every produced entry the status is [deprecated] when the
    deprecation date is truthy and [ga] otherwise (so an empty date string
    gives [ga]), the deprecation date is the source's, the sunset date and
    the successor are null and the date stamp is [2026-02-28]; the same
    holds, read on the entry alone, for every entry of the final
    catalog. *)
Theorem X7_lifecycle_fields :
  (forall key v p e,
      convert_entry int_of_str key v p = Ok (Some e) ->
      deprecation_date (lifecycle e) = get v "deprecation_date"
      /\ status (lifecycle e)
         = (if truthy (get v "deprecation_date") then "deprecated" else "ga")
      /\ sunset_date (lifecycle e) = VNone
      /\ successor (lifecycle e) = VNone
      /\ updated_at e = "2026-02-28")
  /\ (forall raw st k e,
        main int_of_str raw = Ok st ->
        catalog st !! k = Some e ->
        status (lifecycle e)
        = (if truthy (deprecation_date (lifecycle e))
           then "deprecated" else "ga")
        /\ sunset_date (lifecycle e) = VNone
        /\ successor (lifecycle e) = VNone
        /\ updated_at e = "2026-02-28").
Proof.
  split.
  - intros key v p e H. apply convert_entry_fixed_fields in H.
    destruct H as (-> & -> & _). simpl. auto.
  - intros raw st k e Hrun Hlook.
    destruct raw as [| | | | | | items]; try discriminate Hrun.
    destruct (main_loop_origin _ _ _ _ _ _ Hrun Hlook)
      as [Hinit | (key & v & _ & (_ & s & _ & _ & Hconv & _))].
    + simpl in Hinit. rewrite lookup_empty in Hinit. discriminate.
    + apply convert_entry_fixed_fields in Hconv.
      destruct Hconv as (-> & -> & _). simpl. auto.
Qed.

(** ** Capability flags and rates *)

Lemma truthy_not_None (x : value) : truthy x = true -> is_None x = false.
Proof. destruct x; simpl; congruence. Qed.

(** X8: in a produced entry of a mode other than embedding, a true
    [finetuneable] flag comes with a fine-tune input or output rate that is
    not null, and a true [reasoning] flag with a truthy reasoning-support
    flag in the source or a reasoning rate that is not null. *)
Theorem X8_flags_are_backed_by_rates
    (key : string) (v : dict) (p : value) (e : Entry) :
  convert_entry int_of_str key v p = Ok (Some e) ->
  mode e <> "embedding" ->
  (finetuneable (capabilities e) = true ->
     finetune_input_per_m_tokens (pricing e) <> VNone
     \/ finetune_output_per_m_tokens (pricing e) <> VNone)
  /\ (reasoning (capabilities e) = true ->
      truthy (get v "supports_reasoning") = true
      \/ reasoning_per_m_tokens (pricing e) <> VNone).
Proof.
  intros H Hmode. apply convert_entry_inv in H.
  destruct H as (_ & _ & _ & Hpr & _ & ->).
  apply String.eqb_neq in Hmode. rewrite Hmode in Hpr.
  apply general_pricing_inv in Hpr. destruct Hpr as (_ & Hrates & _).
  assert (Hbacked : forall src rate,
             In (src, rate) per_token_rates ->
             truthy (get v src) = true -> rate (pricing e) <> VNone).
  { intros src rate Hin Htruthy. apply is_None_false.
    apply (per_m_field _ _ (Hrates src rate Hin)).
    apply truthy_not_None, Htruthy. }
  unfold caps; simpl. rewrite !truthy_py_or, !orb_true_iff. split.
  - intros [Hin | Hout]; [left | right];
      (eapply Hbacked; [| eassumption]); simpl; auto 10.
  - intros [Hflag | Hprice]; [left; exact Hflag | right].
    eapply Hbacked; [| eassumption]. simpl; auto 10.
Qed.

(** ** Pricing, read on the source *)

Lemma per_m_null_iff (c r : value) :
  per_m c = Ok r -> (r <> VNone <-> is_None c = false).
Proof.
  intros H. destruct (per_m_field _ _ H) as (Habsent & Hpresent).
  destruct (is_None c) eqn:Hc.
  - rewrite (Habsent eq_refl). split; congruence.
  - split; [reflexivity |]. intros _. apply is_None_false, Hpresent.
    reflexivity.
Qed.

Lemma audio_in_per_min_null_iff (v : dict) (r : value) :
  audio_in_per_min v = Ok r ->
  (r <> VNone <->
   is_None (get v "input_cost_per_second") = false
   \/ is_None (get v "input_cost_per_audio_per_second") = false).
Proof.
  intros H. destruct (audio_in_per_min_spec _ _ H) as (H1 & H2 & H3).
  destruct (is_None (get v "input_cost_per_second")) eqn:Hs.
  - destruct (is_None (get v "input_cost_per_audio_per_second")) eqn:Ha.
    + rewrite (H3 eq_refl eq_refl). split; [congruence |].
      intros [Hf | Hf]; discriminate Hf.
    + split; [auto |]. intros _.
      apply is_None_false. eapply rounded_product_not_None, H2; reflexivity.
  - split; [auto |]. intros _.
    apply is_None_false. eapply rounded_product_not_None, H1; reflexivity.
Qed.

(** X9: whether a produced entry has pricing, read on its source.  An
    entry of a mode other than embedding has pricing exactly when one of
    [input_cost_per_token], [output_cost_per_token],
    [output_cost_per_image], [input_cost_per_second],
    [input_cost_per_audio_per_second] and [output_cost_per_character] is
    present and not null; an embedding entry, exactly when
    [input_cost_per_token] is. *)
Theorem X9_has_pricing_on_the_source
    (key : string) (v : dict) (p : value) (e : Entry) :
  convert_entry int_of_str key v p = Ok (Some e) ->
  (mode e <> "embedding" ->
     (has_pricing e = true <->
      exists src, In src general_price_sources /\ is_None (get v src) = false))
  /\ (mode e = "embedding" ->
      (has_pricing e = true <-> is_None (get v "input_cost_per_token") = false)).
Proof.
  intros H. apply convert_entry_inv in H.
  destruct H as (_ & _ & _ & Hpr & _). rewrite has_pricing_iff. split.
  - intros Hmode. apply String.eqb_neq in Hmode. rewrite Hmode in Hpr.
    apply general_pricing_inv in Hpr.
    destruct Hpr as (Haudio & Hrates & Himage & Hchar & Hemb).
    assert (Hin : per_m (get v "input_cost_per_token")
                  = Ok (input_per_m_tokens (pricing e)))
      by (apply Hrates; simpl; auto).
    assert (Hout : per_m (get v "output_cost_per_token")
                   = Ok (output_per_m_tokens (pricing e)))
      by (apply Hrates; simpl; auto).
    rewrite (per_m_null_iff _ _ Hin), (per_m_null_iff _ _ Hout).
    rewrite (audio_in_per_min_null_iff _ _ Haudio).
    rewrite Himage, Hchar, Hemb, <- !is_None_false.
    unfold general_price_sources. split.
    + intros [Hs | [Hs | [Hs | [Hs | [[Hs | Hs] | Hs]]]]];
        try discriminate Hs;
        eexists; (split; [| exact Hs]); simpl; auto 10.
    + intros (src & Hsrc & Hs). simpl in Hsrc.
      destruct Hsrc as [<- | [<- | [<- | [<- | [<- | [<- | []]]]]]]; auto 10.
  - intros Hmode. rewrite Hmode in Hpr. simpl in Hpr.
    apply embedding_pricing_inv in Hpr. destruct Hpr as (Hemb & Hnone).
    rewrite <- (per_m_null_iff _ _ Hemb).
    rewrite (Hnone input_per_m_tokens), (Hnone output_per_m_tokens),
      (Hnone image_per_tile), (Hnone audio_input_per_minute),
      (Hnone audio_output_per_character) by (simpl; auto 12).
    intuition congruence.
Qed.

(** ** Catalog keys *)

(** X10: every key of the final catalog is the provider of its entry, a
    slash, and the model identifier of its entry; that provider is a string
    and is canonical, that is, its own canonical name. *)
Theorem X10_catalog_key_is_provider_slash_model
    (raw : value) (st : State) (k : string) (e : Entry) :
  main int_of_str raw = Ok st ->
  catalog st !! k = Some e ->
  exists c,
    provider e = VStr c
    /\ canonical_provider (VStr c) = Ok (VStr c)
    /\ k = (c ++ "/") ++ model_id e.
Proof.
  intros Hrun Hlook.
  destruct raw as [| | | | | | items]; try discriminate Hrun.
  destruct (main_loop_origin _ _ _ _ _ _ Hrun Hlook)
    as [Hinit | (key & v & _ & (_ & s & _ & _ & Hconv & ->))].
  - simpl in Hinit. rewrite lookup_empty in Hinit. discriminate.
  - exists (canonical_name s). apply convert_entry_inv in Hconv.
    destruct Hconv as (_ & _ & _ & _ & -> & _).
    rewrite canonical_provider_str, canonical_name_idempotent. auto.
Qed.

(** ** Whole runs *)

Lemma main_loop_split
    (pre post : list (string * value)) (item : string * value) (st st' : State) :
  main_loop int_of_str (pre ++ item :: post) st = Ok st' ->
  exists st1 st2,
    main_loop int_of_str pre st = Ok st1
    /\ main_step int_of_str st1 item = Ok st2
    /\ main_loop int_of_str post st2 = Ok st'.
Proof.
  rewrite main_loop_app. intros H. inv_bind H. rename a into st1.
  cbn [main_loop] in H. inv_bind H. rename a into st2. eauto.
Qed.

Lemma main_loop_keeps_priced
    (items : list (string * value)) (st st' : State) (k : string) (e : Entry) :
  main_loop int_of_str items st = Ok st' ->
  catalog st !! k = Some e -> has_pricing e = true ->
  catalog st' !! k = Some e.
Proof.
  revert st. induction items as [| item items IH]; intros st Hrun Hlook Hpriced.
  - now injection Hrun as <-.
  - cbn [main_loop] in Hrun. inv_bind Hrun.
    apply (IH _ Hrun); [| exact Hpriced].
    eapply main_step_keeps_priced; eassumption.
Qed.

(** What an iteration can do to the entry under a key: leave it, or
    replace an unpriced entry by the priced entry of the item. *)
Lemma main_step_change
    (st st' : State) (key : string) (x : value) (k : string) (e : Entry) :
  main_step int_of_str st (key, x) = Ok st' ->
  catalog st !! k = Some e ->
  catalog st' !! k = Some e
  \/ exists v e',
       x = VDict v /\ accepts int_of_str key v k e'
       /\ has_pricing e' = true /\ has_pricing e = false
       /\ catalog st' !! k = Some e'.
Proof.
  intros Hstep Hlook. apply main_step_cases in Hstep.
  destruct Hstep as [(_ & ->) | [(_ & _ & ->) | [(_ & v & _ & _ & ->)
    | [(_ & v & p & _ & _ & _ & _ & ->) | (v & k' & e' & -> & Hacc & ->)]]]];
    auto.
  destruct (decide (k' = k)) as [-> | Hne].
  - rewrite (store_lookup_existing _ _ _ _ Hlook).
    destruct (has_pricing e') eqn:Hnew, (has_pricing e) eqn:Hold; simpl; auto.
    right. exists v, e'. auto 10.
  - left. now rewrite store_lookup_ne.
Qed.

Lemma main_loop_keeps_key
    (items : list (string * value)) (st st' : State) (k : string) :
  main_loop int_of_str items st = Ok st' ->
  is_Some (catalog st !! k) -> is_Some (catalog st' !! k).
Proof.
  revert st. induction items as [| [key x] items IH]; intros st Hrun Hsome.
  - now injection Hrun as <-.
  - cbn [main_loop] in Hrun. inv_bind Hrun. apply (IH _ Hrun).
    destruct Hsome as [e Hlook].
    destruct (main_step_change _ _ _ _ _ _ Ha Hlook)
      as [Hsame | (v & e' & _ & _ & _ & _ & Hnew)]; eauto.
Qed.

Lemma store_lookup_key (k : string) (e : Entry) (st : State) :
  is_Some (catalog (store k e st) !! k).
Proof.
  destruct (catalog st !! k) as [existing |] eqn:Hlook.
  - rewrite (store_lookup_existing _ _ _ _ Hlook). eauto.
  - rewrite (store_lookup_new _ _ _ Hlook). eauto.
Qed.

Lemma main_step_size (st st' : State) (item : string * value) :
  main_step int_of_str st item = Ok st' ->
  (size (catalog st) <= size (catalog st'))%nat.
Proof.
  destruct item as [key x]. intros Hstep. apply main_step_cases in Hstep.
  destruct Hstep as [(_ & ->) | [(_ & _ & ->) | [(_ & v & _ & _ & ->)
    | [(_ & v & p & _ & _ & _ & _ & ->) | (v & k' & e' & _ & _ & ->)]]]];
    try reflexivity.
  destruct (store_size_cases k' e' st)
    as [(_ & -> & _) | (_ & -> & _)]; lia.
Qed.

(** X11: a run never removes a key: a key that the catalog holds at some
    point of the run is held at every later point, and the number of keys
    never goes down. *)
Theorem X11_keys_are_never_removed
    (items : list (string * value)) (st st' : State) :
  main_loop int_of_str items st = Ok st' ->
  (forall k, is_Some (catalog st !! k) -> is_Some (catalog st' !! k))
  /\ (size (catalog st) <= size (catalog st'))%nat.
Proof.
  intros Hrun. split.
  - intros k. eapply main_loop_keeps_key, Hrun.
  - revert st Hrun. induction items as [| item items IH]; intros st Hrun.
    + now injection Hrun as <-.
    + cbn [main_loop] in Hrun. inv_bind Hrun.
      etransitivity; [eapply main_step_size, Ha | apply (IH _ Hrun)].
Qed.

(** X12: the keys of the final catalog are exactly the catalog keys of the
    accepted items of the run. *)
Theorem X12_catalog_keys_are_the_accepted_keys
    (items : list (string * value)) (st : State) (k : string) :
  main int_of_str (VDict items) = Ok st ->
  (is_Some (catalog st !! k) <->
   exists key v e, In (key, VDict v) items /\ accepts int_of_str key v k e).
Proof.
  intros Hrun. unfold main in Hrun. split.
  - intros [e Hlook].
    destruct (main_loop_origin _ _ _ _ _ _ Hrun Hlook)
      as [Hinit | (key & v & Hin & Hacc)].
    + simpl in Hinit. rewrite lookup_empty in Hinit. discriminate.
    + eauto.
  - intros (key & v & e & Hin & Hacc).
    apply in_split in Hin. destruct Hin as (pre & post & ->).
    apply main_loop_split in Hrun.
    destruct Hrun as (st1 & st2 & _ & Hstep & Hpost).
    rewrite (main_step_accepted _ _ _ _ _ _ Hacc) in Hstep.
    injection Hstep as <-.
    eapply main_loop_keeps_key; [exact Hpost | apply store_lookup_key].
Qed.

(** X13: priced data is never lost: when any accepted item of the run
    has pricing, the entry that the final catalog holds under its key has
    pricing. *)
Theorem X13_priced_data_is_never_lost
    (items : list (string * value)) (st : State)
    (key : string) (v : dict) (k : string) (e : Entry) :
  main int_of_str (VDict items) = Ok st ->
  In (key, VDict v) items ->
  accepts int_of_str key v k e ->
  has_pricing e = true ->
  exists e', catalog st !! k = Some e' /\ has_pricing e' = true.
Proof.
  intros Hrun Hin Hacc Hpriced. unfold main in Hrun.
  apply in_split in Hin. destruct Hin as (pre & post & ->).
  apply main_loop_split in Hrun.
  destruct Hrun as (st1 & st2 & _ & Hstep & Hpost).
  rewrite (main_step_accepted _ _ _ _ _ _ Hacc) in Hstep.
  injection Hstep as <-.
  assert (Hnow : exists e', catalog (store k e st1) !! k = Some e'
                            /\ has_pricing e' = true).
  { destruct (catalog st1 !! k) as [existing |] eqn:Hlook.
    - rewrite (store_lookup_existing _ _ _ _ Hlook), Hpriced. simpl.
      destruct (has_pricing existing) eqn:Hex; simpl; eauto.
    - rewrite (store_lookup_new _ _ _ Hlook). eauto. }
  destruct Hnow as (e' & Hlook' & Hpriced').
  exists e'. split; [| exact Hpriced'].
  eapply main_loop_keeps_priced; eassumption.
Qed.

Lemma main_loop_keeps_without_priced
    (items : list (string * value)) (st st' : State) (k : string) (e : Entry) :
  main_loop int_of_str items st = Ok st' ->
  catalog st !! k = Some e ->
  (forall key' v' e', In (key', VDict v') items ->
     accepts int_of_str key' v' k e' -> has_pricing e' = false) ->
  catalog st' !! k = Some e.
Proof.
  revert st. induction items as [| [key x] items IH]; intros st Hrun Hlook Hnone.
  - now injection Hrun as <-.
  - cbn [main_loop] in Hrun. inv_bind Hrun. rename a into st1.
    apply (IH _ Hrun); [| intros key' v' e' Hin; apply Hnone; right; exact Hin].
    destruct (main_step_change _ _ _ _ _ _ Ha Hlook)
      as [Hsame | (v & e' & -> & Hacc & Hpriced & _)]; [exact Hsame |].
    rewrite (Hnone key v e') in Hpriced; [discriminate | left; reflexivity | exact Hacc].
Qed.

(** X14: among the accepted items of one catalog key, the first one that
    has pricing wins: the final catalog holds its entry, whatever comes
    after it. *)
Theorem X14_first_priced_entry_wins
    (pre post : list (string * value)) (st : State)
    (key : string) (v : dict) (k : string) (e : Entry) :
  main int_of_str (VDict (pre ++ (key, VDict v) :: post)) = Ok st ->
  accepts int_of_str key v k e ->
  has_pricing e = true ->
  (forall key' v' e', In (key', VDict v') pre ->
     accepts int_of_str key' v' k e' -> has_pricing e' = false) ->
  catalog st !! k = Some e.
Proof.
  intros Hrun Hacc Hpriced Hbefore. unfold main in Hrun.
  apply main_loop_split in Hrun.
  destruct Hrun as (st1 & st2 & Hpre & Hstep & Hpost).
  rewrite (main_step_accepted _ _ _ _ _ _ Hacc) in Hstep.
  injection Hstep as <-.
  eapply main_loop_keeps_priced; [exact Hpost | | exact Hpriced].
  destruct (catalog st1 !! k) as [existing |] eqn:Hlook.
  - rewrite (store_lookup_existing _ _ _ _ Hlook), Hpriced.
    destruct (main_loop_origin _ _ _ _ _ _ Hpre Hlook)
      as [Hinit | (key' & v' & Hin & Hacc')].
    + simpl in Hinit. rewrite lookup_empty in Hinit. discriminate.
    + now rewrite (Hbefore _ _ _ Hin Hacc').
  - apply store_lookup_new, Hlook.
Qed.

(** X15: when no accepted item of a catalog key that comes after the first
    one has pricing, the final catalog holds the entry of the first one:
    an unpriced duplicate never replaces anything. *)
Theorem X15_first_entry_stays_without_priced_duplicate
    (pre post : list (string * value)) (st : State)
    (key : string) (v : dict) (k : string) (e : Entry) :
  main int_of_str (VDict (pre ++ (key, VDict v) :: post)) = Ok st ->
  accepts int_of_str key v k e ->
  (forall key' v' e', In (key', VDict v') pre ->
     ~ accepts int_of_str key' v' k e') ->
  (forall key' v' e', In (key', VDict v') post ->
     accepts int_of_str key' v' k e' -> has_pricing e' = false) ->
  catalog st !! k = Some e.
Proof.
  intros Hrun Hacc Hfirst Hafter. unfold main in Hrun.
  apply main_loop_split in Hrun.
  destruct Hrun as (st1 & st2 & Hpre & Hstep & Hpost).
  rewrite (main_step_accepted _ _ _ _ _ _ Hacc) in Hstep.
  injection Hstep as <-.
  eapply main_loop_keeps_without_priced; [exact Hpost | | exact Hafter].
  apply store_lookup_new.
  destruct (catalog st1 !! k) as [existing |] eqn:Hlook; [| reflexivity].
  destruct (main_loop_origin _ _ _ _ _ _ Hpre Hlook)
    as [Hinit | (key' & v' & Hin & Hacc')].
  - simpl in Hinit. rewrite lookup_empty in Hinit. discriminate.
  - destruct (Hfirst _ _ _ Hin Hacc').
Qed.

(** *** Counters *)

Lemma store_total_counted (k : string) (e : Entry) (st : State) :
  total_counted (counters (store k e st)) = S (total_counted (counters st)).
Proof.
  unfold store, total_counted.
  destruct (catalog st !! k); simpl; lia.
Qed.

Lemma main_step_total_counted (st st' : State) (item : string * value) :
  main_step int_of_str st item = Ok st' ->
  (total_counted (counters st') + (if uncounted_item item then 1 else 0)
   = S (total_counted (counters st)))%nat.
Proof.
  destruct item as [key x]. intros Hstep. apply main_step_cases in Hstep.
  unfold uncounted_item. cbn [fst snd].
  destruct Hstep as [(-> & ->) | [(Hkey & Hx & ->) | [(Hkey & v & -> & _ & ->)
    | [(Hkey & v & p & -> & _ & _ & _ & ->) | (v & k' & e' & -> & _ & ->)]]]].
  - unfold total_counted. simpl. lia.
  - apply String.eqb_neq in Hkey. rewrite Hkey.
    destruct x; try (simpl; lia). now destruct (Hx d).
  - rewrite andb_false_r. unfold total_counted. simpl. lia.
  - rewrite andb_false_r. unfold total_counted. simpl. lia.
  - rewrite andb_false_r, store_total_counted. lia.
Qed.

(** X16: every item of a run is accounted for once: at the end the five
    counters add up to the number of items, less the values that are not
    records (under a key other than the reserved one), which no counter
    sees. *)
Theorem X16_counters_account_for_every_item
    (items : list (string * value)) (st : State) :
  main int_of_str (VDict items) = Ok st ->
  (total_counted (counters st) + uncounted items = length items)%nat.
Proof.
  unfold main.
  assert (Hgen : forall st0,
             main_loop int_of_str items st0 = Ok st ->
             (total_counted (counters st) + uncounted items
              = total_counted (counters st0) + length items)%nat).
  { induction items as [| item items IH]; intros st0 Hrun.
    - injection Hrun as <-. unfold uncounted. simpl. lia.
    - cbn [main_loop] in Hrun. inv_bind Hrun. rename a into st1.
      specialize (IH _ Hrun). apply main_step_total_counted in Ha.
      unfold uncounted in *. cbn [List.filter length].
      destruct (uncounted_item item); cbn [length]; lia. }
  intros Hrun. rewrite (Hgen _ Hrun). reflexivity.
Qed.

(** *** Exceptions *)





(** X18: the run fails fast: the exception of the first iteration that
    raises is the result of the whole run, whatever items follow, so no
    catalog is returned. *)
Theorem X18_first_exception_is_the_result
    (pre post : list (string * value)) (item : string * value)
    (st1 : State) (err : exn) :
  main_loop int_of_str pre init_state = Ok st1 ->
  main_step int_of_str st1 item = Raise err ->
  main int_of_str (VDict (pre ++ item :: post)) = Raise err.
Proof.
  intros Hpre Hstep. unfold main.
  rewrite main_loop_app, Hpre. cbn [mbind result_bind main_loop].
  now rewrite Hstep.
Qed.

End Coverage.

(** * The further properties at sample data *)

(** Settles, for a one-item list, that its accepted entry has the pricing
    status claimed. *)
Ltac settle_single_item :=
  let Heq := fresh "Heq" in
  let Hs := fresh "Hs" in
  let Hconv := fresh "Hconv" in
  intros ? ? ? [Heq | []] (_ & ? & Hs & _ & Hconv & _);
  injection Heq as <- <-;
  vm_compute in Hs; injection Hs as <-;
  vm_compute in Hconv; injection Hconv as <-;
  reflexivity.

(** X1 at the alias [chatgpt]. *)
Lemma X1_witness :
  canonical_provider (VStr "chatgpt") = Ok (VStr "openai")
  /\ canonical_provider (VStr "openai") = Ok (VStr "openai").
Proof.
  split; [reflexivity |].
  apply (X1_canonical_provider_idempotent (VStr "chatgpt")). reflexivity.
Defined.

(** X4 at a model of the unlisted mode [responses]. *)
Lemma X4_witness :
  exists e,
    convert_entry IntOfStr.parse "gpt-r" Samples.unknown_mode (VStr "openai")
    = Ok (Some e)
    /\ In (mode e) CATALOG_MODES
    /\ mode e = "chat".
Proof.
  eexists. split; [vm_compute; reflexivity |].
  match goal with
  | |- In (mode ?e) _ /\ _ =>
      assert_converted Hconv "gpt-r" Samples.unknown_mode (VStr "openai") e
  end.
  destruct (proj1 (X4_mode_is_a_catalog_mode IntOfStr.parse) _ _ _ _ Hconv)
    as (Hin & Hchat).
  split; [exact Hin |]. apply Hchat.
  intros m Hm. vm_compute in Hm. injection Hm as <-. reflexivity.
Defined.

(** X5 at an embedding model. *)
Lemma X5_witness :
  exists e,
    convert_entry IntOfStr.parse "text-embedding-3"
      Samples.embedding_with_extras (VStr "openai") = Ok (Some e)
    /\ embedding_per_m_tokens (pricing e) = VInt 1000000
    /\ mode e = "embedding"
    /\ output_per_m_tokens (pricing e) = VNone.
Proof.
  eexists. split; [vm_compute; reflexivity |].
  split; [vm_compute; reflexivity |].
  match goal with
  | |- mode ?e = _ /\ _ =>
      assert_converted Hconv "text-embedding-3"
        Samples.embedding_with_extras (VStr "openai") e
  end.
  destruct (proj1 (X5_embedding_rate_excludes_the_others IntOfStr.parse)
              _ _ _ _ Hconv) as (Hmode & Hnone); [discriminate |].
  split; [exact Hmode |]. apply Hnone. simpl. auto.
Defined.

(** X6 at a chat model with a float input cost. *)
Lemma X6_witness :
  exists e,
    convert_entry IntOfStr.parse "gpt-x" Samples.chat_with_audio (VStr "openai")
    = Ok (Some e)
    /\ is_rate (input_per_m_tokens (pricing e)) = true
    /\ is_rate (audio_input_per_minute (pricing e)) = true.
Proof.
  eexists. split; [vm_compute; reflexivity |].
  match goal with
  | |- is_rate (input_per_m_tokens (pricing ?e)) = _ /\ _ =>
      assert_converted Hconv "gpt-x" Samples.chat_with_audio (VStr "openai") e
  end.
  destruct (proj1 (X6_computed_rates_are_numbers_or_null IntOfStr.parse)
              _ _ _ _ Hconv) as (Hrates & _).
  split; apply Hrates; simpl; auto 10.
Defined.

(** X7 at a model with a deprecation date. *)
Lemma X7_witness :
  exists e,
    convert_entry IntOfStr.parse "gpt-old" Samples.deprecated_model
      (VStr "openai") = Ok (Some e)
    /\ status (lifecycle e) = "deprecated"
    /\ sunset_date (lifecycle e) = VNone.
Proof.
  eexists. split; [vm_compute; reflexivity |].
  match goal with
  | |- status (lifecycle ?e) = _ /\ _ =>
      assert_converted Hconv "gpt-old" Samples.deprecated_model (VStr "openai") e
  end.
  destruct (proj1 (X7_lifecycle_fields IntOfStr.parse) _ _ _ _ Hconv)
    as (_ & Hstatus & Hsunset & _).
  split; [exact Hstatus | exact Hsunset].
Defined.

(** X8 at a chat model with a fine-tuning cost and a reasoning flag. *)
Lemma X8_witness :
  exists e,
    convert_entry IntOfStr.parse "gpt-x" Samples.chat_with_audio (VStr "openai")
    = Ok (Some e)
    /\ mode e <> "embedding"
    /\ finetuneable (capabilities e) = true
    /\ (finetune_input_per_m_tokens (pricing e) <> VNone
        \/ finetune_output_per_m_tokens (pricing e) <> VNone).
Proof.
  eexists. split; [vm_compute; reflexivity |].
  assert (Hmode : "chat" <> "embedding") by discriminate.
  split; [exact Hmode |]. split; [reflexivity |].
  match goal with
  | |- finetune_input_per_m_tokens (pricing ?e) <> _ \/ _ =>
      assert_converted Hconv "gpt-x" Samples.chat_with_audio (VStr "openai") e
  end.
  apply (proj1 (X8_flags_are_backed_by_rates IntOfStr.parse _ _ _ _
                  Hconv Hmode)).
  reflexivity.
Defined.

(** X9 at a chat model with an input cost. *)
Lemma X9_witness :
  exists e,
    convert_entry IntOfStr.parse "gpt-4/foo" Samples.gpt4_foo (VStr "openai")
    = Ok (Some e)
    /\ mode e <> "embedding"
    /\ is_None (get Samples.gpt4_foo "input_cost_per_token") = false
    /\ has_pricing e = true.
Proof.
  eexists. split; [vm_compute; reflexivity |].
  assert (Hmode : "chat" <> "embedding") by discriminate.
  split; [exact Hmode |]. split; [reflexivity |].
  match goal with
  | |- has_pricing ?e = true =>
      assert_converted Hconv "gpt-4/foo" Samples.gpt4_foo (VStr "openai") e
  end.
  apply (proj1 (X9_has_pricing_on_the_source IntOfStr.parse _ _ _ _ Hconv)
           Hmode).
  exists "input_cost_per_token". split; [simpl; auto | reflexivity].
Defined.

(** X10 at the catalog of the [gpt-4/foo] run. *)
Lemma X10_witness :
  exists st e,
    main IntOfStr.parse Samples.raw_gpt4_foo = Ok st
    /\ catalog st !! "openai/gpt-4/foo" = Some e
    /\ exists c, provider e = VStr c
                 /\ canonical_provider (VStr c) = Ok (VStr c)
                 /\ "openai/gpt-4/foo" = (c ++ "/") ++ model_id e.
Proof.
  eexists. eexists.
  split; [vm_compute; reflexivity |].
  split; [vm_compute; reflexivity |].
  eapply (X10_catalog_key_is_provider_slash_model IntOfStr.parse
            Samples.raw_gpt4_foo);
    vm_compute; reflexivity.
Defined.

(** X11 at a run continued by a duplicate. *)
Lemma X11_witness :
  exists st st',
    main_loop IntOfStr.parse [("openai/foo", VDict Samples.unpriced)] init_state
    = Ok st
    /\ main_loop IntOfStr.parse [("foo", VDict Samples.priced)] st = Ok st'
    /\ is_Some (catalog st !! "openai/foo")
    /\ is_Some (catalog st' !! "openai/foo")
    /\ (size (catalog st) <= size (catalog st'))%nat.
Proof.
  eexists. eexists.
  split; [vm_compute; reflexivity |].
  split; [vm_compute; reflexivity |].
  split; [vm_compute; eauto |].
  match goal with
  | |- is_Some (catalog ?st' !! _) /\ (size (catalog ?st) <= _)%nat =>
      assert (Hrun : main_loop IntOfStr.parse
                       [("foo", VDict Samples.priced)] st = Ok st')
        by (vm_compute; reflexivity)
  end.
  destruct (X11_keys_are_never_removed IntOfStr.parse _ _ _ Hrun)
    as (Hkeys & Hsize).
  split; [apply Hkeys; vm_compute; eauto | exact Hsize].
Defined.

(** X12 and X13 at two source keys of [openai/foo]. *)
Lemma X12_witness :
  exists st,
    main IntOfStr.parse Samples.raw_unpriced_then_priced = Ok st
    /\ is_Some (catalog st !! "openai/foo").
Proof.
  eexists. split; [vm_compute; reflexivity |].
  match goal with
  | |- is_Some (catalog ?st !! _) =>
      assert (Hrun : main IntOfStr.parse
                       (VDict [("openai/foo", VDict Samples.unpriced);
                               ("foo", VDict Samples.priced)]) = Ok st)
        by (vm_compute; reflexivity)
  end.
  apply (proj2 (X12_catalog_keys_are_the_accepted_keys IntOfStr.parse
                  _ _ "openai/foo" Hrun)).
  exists "foo", Samples.priced. eexists.
  split; [simpl; auto |]. accepts_by_computation "openai".
Defined.

Lemma X13_witness :
  exists st,
    main IntOfStr.parse Samples.raw_unpriced_then_priced = Ok st
    /\ exists e', catalog st !! "openai/foo" = Some e'
                  /\ has_pricing e' = true.
Proof.
  eexists. split; [vm_compute; reflexivity |].
  assert (Hacc : exists e,
             accepts IntOfStr.parse "foo" Samples.priced "openai/foo" e
             /\ has_pricing e = true).
  { eexists. split; [accepts_by_computation "openai" | reflexivity]. }
  destruct Hacc as (e & Hacc & Hpriced).
  match goal with
  | |- exists e', catalog ?st !! _ = _ /\ _ =>
      assert (Hrun : main IntOfStr.parse
                       (VDict [("openai/foo", VDict Samples.unpriced);
                               ("foo", VDict Samples.priced)]) = Ok st)
        by (vm_compute; reflexivity)
  end.
  apply (X13_priced_data_is_never_lost IntOfStr.parse _ _
           "foo" Samples.priced "openai/foo" e Hrun);
    [simpl; auto | exact Hacc | exact Hpriced].
Defined.

(** X14 at an unpriced entry, a priced duplicate and a later priced
    duplicate under an alias. *)
Lemma X14_witness :
  exists st e,
    main IntOfStr.parse
      (VDict [("openai/foo", VDict Samples.unpriced);
              ("foo", VDict Samples.priced);
              ("chatgpt/foo", VDict Samples.priced_alias)]) = Ok st
    /\ accepts IntOfStr.parse "foo" Samples.priced "openai/foo" e
    /\ catalog st !! "openai/foo" = Some e.
Proof.
  eexists. eexists.
  split; [vm_compute; reflexivity |].
  split; [accepts_by_computation "openai" |].
  eapply (fun Hrun Hacc Hpriced Hbefore =>
            X14_first_priced_entry_wins IntOfStr.parse
              [("openai/foo", VDict Samples.unpriced)]
              [("chatgpt/foo", VDict Samples.priced_alias)]
              _ "foo" Samples.priced "openai/foo" _
              Hrun Hacc Hpriced Hbefore).
  - vm_compute. reflexivity.
  - accepts_by_computation "openai".
  - reflexivity.
  - settle_single_item.
Defined.

(** X15 at an unpriced entry followed by an unpriced duplicate. *)
Lemma X15_witness :
  exists st e,
    main IntOfStr.parse
      (VDict [("openai/foo", VDict Samples.unpriced);
              ("foo", VDict Samples.deprecated_model)]) = Ok st
    /\ accepts IntOfStr.parse "openai/foo" Samples.unpriced "openai/foo" e
    /\ catalog st !! "openai/foo" = Some e.
Proof.
  eexists. eexists.
  split; [vm_compute; reflexivity |].
  split; [accepts_by_computation "openai" |].
  eapply (fun Hrun Hacc Hfirst Hafter =>
            X15_first_entry_stays_without_priced_duplicate IntOfStr.parse
              [] [("foo", VDict Samples.deprecated_model)]
              _ "openai/foo" Samples.unpriced "openai/foo" _
              Hrun Hacc Hfirst Hafter).
  - vm_compute. reflexivity.
  - accepts_by_computation "openai".
  - intros key' v' e' [].
  - settle_single_item.
Defined.

(** X16 at a run with one item of each skip category before a model:
    four items counted, one not. *)
Lemma X16_witness :
  exists st,
    main IntOfStr.parse Samples.raw_with_skips = Ok st
    /\ total_counted (counters st) = 4%nat
    /\ (total_counted (counters st) + 1 = 5)%nat.
Proof.
  eexists. split; [vm_compute; reflexivity |].
  split; [vm_compute; reflexivity |].
  match goal with
  | |- (total_counted (counters ?st) + 1 = 5)%nat =>
      assert (Hrun : main IntOfStr.parse
                       (VDict [ ("sample_spec", VDict Samples.gpt4_foo);
                                ("not-a-record", VStr "text");
                                ("anonymous", VDict Samples.no_provider);
                                ("cohere/rerank-v3", VDict Samples.reranker);
                                ("gpt-4/foo", VDict Samples.gpt4_foo) ]) = Ok st)
        by (vm_compute; reflexivity)
  end.
  exact (X16_counters_account_for_every_item IntOfStr.parse _ _ Hrun).
Defined.


Lemma X18_witness :
  main IntOfStr.parse
    (VDict [("gpt-4/foo", VDict Samples.gpt4_foo);
            ("odd", VDict Samples.numeric_provider);
            ("foo", VDict Samples.priced)]) = Raise TypeError.
Proof.
  eapply (fun Hpre Hstep =>
            X18_first_exception_is_the_result IntOfStr.parse
              [("gpt-4/foo", VDict Samples.gpt4_foo)]
              [("foo", VDict Samples.priced)]
              ("odd", VDict Samples.numeric_provider) _ TypeError Hpre Hstep).
  - vm_compute. reflexivity.
  - vm_compute. reflexivity.
Defined.
